(** * Verification of the blueprint parser (app/services/blueprint_parser.py)

    The development embeds [BlueprintParser.decode],
    [BlueprintParser.extract_metadata], [BlueprintParser._calculate_dimensions],
    [BlueprintParser._decode_version] and [BlueprintParser.parse], and the
    start of [BlueprintService.create_blueprint], as Rocq functions over a
    model of the Python values they handle, and proves the properties the
    specification states about them.

    Conventions.
    - A Python [str] is a [string]; a character whose code is 128 or more
      stands for a non-ASCII code point.  A Python [bytes] is a [list byte].
    - A Python [int] is a [Z]; a Python [float] is a binary64 [spec_float].
    - A decoded document is a [json]: an object is the list of its fields
      in document order, with distinct keys.  [json.loads] returns one and
      the same object for every [NaN], so two [NaN] of a document are
      identical although not equal.
    - A call that may raise returns a [result]; the exception classes the
      parser can meet are the constructors of [exn].
    - [base64.b64decode] is embedded from its definition in the Python
      standard library ([validate=False], i.e. [binascii.a2b_base64] in its
      non-strict mode); [zlib] and [json] are kept abstract and enter as
      section variables. *)

From Stdlib Require Import ZArith NArith List String Ascii Bool Lia.
From Stdlib Require Import Strings.Byte.
From Stdlib Require Import DecimalString.
From Stdlib Require Import Floats.SpecFloat.
From Stdlib Require Import QArith.
From Stdlib Require Import QArith.Qpower.
From Stdlib Require Import Sorting.Permutation.
Import ListNotations.

Open Scope string_scope.
Open Scope list_scope.

(** ** Exceptions and results *)

Inductive exn : Type :=
| BlueprintParseError (msg : string)
| binascii_Error (msg : string)
| zlib_error (msg : string)
| JSONDecodeError (msg : string)
| UnicodeDecodeError
| ValueError
| TypeError
| AttributeError
| KeyError
| OverflowError.

(** [str(e)] for the exceptions that carry a message. *)
Definition exn_str (e : exn) : string :=
  match e with
  | BlueprintParseError m | binascii_Error m | zlib_error m
  | JSONDecodeError m => m
  | _ => ""
  end.

Inductive result (A : Type) : Type :=
| Ok (a : A)
| Raise (e : exn).
Arguments Ok {A} a.
Arguments Raise {A} e.

Definition bind {A B : Type} (r : result A) (k : A -> result B) : result B :=
  match r with
  | Ok a => k a
  | Raise e => Raise e
  end.

Notation "x <- c ;; k" := (bind c (fun x => k))
  (at level 61, c at next level, right associativity).

(** [try: body except ...: handler] *)
Definition try_except {A : Type} (body : result A) (handler : exn -> result A)
  : result A :=
  match body with
  | Ok a => Ok a
  | Raise e => handler e
  end.

(** ** Decoded documents *)

#[warnings="-register-all"]
Inductive json : Type :=
| JNull
| JBool (b : bool)
| JInt (z : Z)
| JFloat (f : spec_float)
| JStr (s : string)
| JArr (items : list json)
| JObj (fields : list (string * json)).

(** ** Strings *)

(** [s.startswith(p)] *)
Definition startswith (s p : string) : bool := String.prefix p s.

(** [s[1:]] *)
Definition slice_from_1 (s : string) : string :=
  match s with
  | EmptyString => EmptyString
  | String _ rest => rest
  end.

Definition is_ascii_char (c : ascii) : bool := (N_of_ascii c <? 128)%N.

Fixpoint is_ascii (s : string) : bool :=
  match s with
  | EmptyString => true
  | String c rest => is_ascii_char c && is_ascii rest
  end.

(** Checking a property of all numbers below a bound by computation. *)
Definition below (n : nat) (P : N -> bool) : bool :=
  forallb P (map N.of_nat (seq 0 n)).

(** ** base64 *)

Module Base64.

Definition BASE64_PAD : ascii := "="%char.

Definition table_b2a_base64 : string :=
  "ABCDEFGHIJKLMNOPQRSTUVWXYZabcdefghijklmnopqrstuvwxyz0123456789+/".

Definition b2a (v : N) : ascii :=
  match String.get (N.to_nat v) table_b2a_base64 with
  | Some c => c
  | None => BASE64_PAD
  end.

(** The decoding table of [binascii]: the value of an alphabet character,
    0 for the pad and 255 (the byte -1) for every other character. *)
Definition table_a2b_base64 (c : ascii) : N :=
  let n := N_of_ascii c in
  (if (65 <=? n) && (n <=? 90) then n - 65
   else if (97 <=? n) && (n <=? 122) then n - 71
   else if (48 <=? n) && (n <=? 57) then n + 4
   else if n =? 43 then 62
   else if n =? 47 then 63
   else if n =? 61 then 0
   else 255)%N.

(** Storing into an [unsigned char]. *)
Definition byte_of_N (n : N) : byte :=
  match Byte.of_N (n mod 256) with
  | Some b => b
  | None => x00
  end.

(** The four 6-bit groups of three bytes. *)
Definition quad (a b c : N) : N * N * N * N :=
  (N.shiftr a 2,
   N.lor (N.shiftl (N.land a 3) 4) (N.shiftr b 4),
   N.lor (N.shiftl (N.land b 15) 2) (N.shiftr c 6),
   N.land c 63)%N.

(** [base64.b64encode]: standard alphabet, [=] padding, no line breaks. *)
Fixpoint b64encode (bs : list byte) : string :=
  match bs with
  | [] => ""
  | [a] =>
      let '(s0, s1, _, _) := quad (Byte.to_N a) 0 0 in
      String (b2a s0) (String (b2a s1) "==")
  | [a; b] =>
      let '(s0, s1, s2, _) := quad (Byte.to_N a) (Byte.to_N b) 0 in
      String (b2a s0) (String (b2a s1) (String (b2a s2) "="))
  | a :: b :: c :: rest =>
      let '(s0, s1, s2, s3) := quad (Byte.to_N a) (Byte.to_N b) (Byte.to_N c) in
      String (b2a s0) (String (b2a s1) (String (b2a s2) (String (b2a s3)
        (b64encode rest))))
  end.

Definition incorrect_padding : string := "Incorrect padding".

Definition invalid_length (bin_len : N) : string :=
  ("Invalid base64-encoded string: number of data characters ("
   ++ NilEmpty.string_of_uint (N.to_uint (bin_len / 3 * 4 + 1))
   ++ ") cannot be 1 more than a multiple of 4")%string.

(** The loop of [binascii.a2b_base64] in non-strict mode.  [acc] holds the
    bytes written so far, last one first. *)
Fixpoint a2b_loop (s : string) (quad_pos leftchar pads : N) (acc : list byte)
  : result (list byte) :=
  match s with
  | EmptyString =>
      if (quad_pos =? 0)%N then Ok (rev acc)
      else if (quad_pos =? 1)%N
           then Raise (binascii_Error (invalid_length (N.of_nat (List.length acc))))
           else Raise (binascii_Error incorrect_padding)
  | String this_ch rest =>
      if Ascii.eqb this_ch BASE64_PAD then
        if (2 <=? quad_pos)%N then
          if (4 <=? quad_pos + (pads + 1))%N then Ok (rev acc)
          else a2b_loop rest quad_pos leftchar (pads + 1)%N acc
        else a2b_loop rest quad_pos leftchar pads acc
      else
        let v := table_a2b_base64 this_ch in
        if (64 <=? v)%N then a2b_loop rest quad_pos leftchar pads acc
        else
          match quad_pos with
          | 0%N => a2b_loop rest 1%N v 0%N acc
          | 1%N =>
              a2b_loop rest 2%N (N.land v 15) 0%N
                (byte_of_N (N.lor (N.shiftl leftchar 2) (N.shiftr v 4)) :: acc)
          | 2%N =>
              a2b_loop rest 3%N (N.land v 3) 0%N
                (byte_of_N (N.lor (N.shiftl leftchar 4) (N.shiftr v 2)) :: acc)
          | _ =>
              a2b_loop rest 0%N 0%N 0%N
                (byte_of_N (N.lor (N.shiftl leftchar 6) v) :: acc)
          end
  end.

Definition a2b_base64 (s : string) : result (list byte) :=
  a2b_loop s 0%N 0%N 0%N [].

(** [base64.b64decode(s)] on a [str]: the argument is first encoded as
    ASCII, which raises [ValueError] on any other character. *)
Definition b64decode (s : string) : result (list byte) :=
  if is_ascii s then a2b_base64 s else Raise ValueError.

End Base64.

(** ** Python numbers *)

(** [int] and [float]; a [bool] is an [int]. *)
Inductive pynum : Type :=
| PInt (z : Z)
| PFloat (f : spec_float).

Definition as_number (v : json) : option pynum :=
  match v with
  | JBool b => Some (PInt (if b then 1 else 0)%Z)
  | JInt z => Some (PInt z)
  | JFloat f => Some (PFloat f)
  | _ => None
  end.

(** The value of a number: a rational, an infinity or not-a-number.
    Python compares numbers, also an [int] with a [float], by value. *)
Inductive xreal : Type :=
| XNaN
| XNegInf
| XFinite (q : Q)
| XPosInf.

Definition float_value (f : spec_float) : xreal :=
  match f with
  | S754_nan => XNaN
  | S754_infinity s => if s then XNegInf else XPosInf
  | S754_zero _ => XFinite 0
  | S754_finite s m e =>
      XFinite (inject_Z (cond_Zopp s (Zpos m)) * Qpower (2 # 1) e)
  end.

Definition num_value (n : pynum) : xreal :=
  match n with
  | PInt z => XFinite (inject_Z z)
  | PFloat f => float_value f
  end.

Definition xreal_lt (a b : xreal) : bool :=
  match a, b with
  | XNaN, _ | _, XNaN => false
  | _, XNegInf => false
  | XNegInf, _ => true
  | XPosInf, _ => false
  | XFinite _, XPosInf => true
  | XFinite p, XFinite q => match (p ?= q)%Q with Lt => true | _ => false end
  end.

Definition xreal_eq (a b : xreal) : bool :=
  match a, b with
  | XNegInf, XNegInf | XPosInf, XPosInf => true
  | XFinite p, XFinite q => match (p ?= q)%Q with Eq => true | _ => false end
  | _, _ => false
  end.

Definition num_lt (a b : pynum) : bool := xreal_lt (num_value a) (num_value b).
Definition num_eq (a b : pynum) : bool := xreal_eq (num_value a) (num_value b).

(** binary64 *)
Definition prec : Z := 53.
Definition emax : Z := 1024.

(** [float(z)], rounding to nearest even; an [int] too large raises. *)
Definition float_of_int (z : Z) : result spec_float :=
  match binary_normalize prec emax z 0 false with
  | S754_infinity _ => Raise OverflowError
  | f => Ok f
  end.

(** [a - b] *)
Definition py_sub (a b : json) : result pynum :=
  match as_number a, as_number b with
  | Some (PInt x), Some (PInt y) => Ok (PInt (x - y))
  | Some (PFloat x), Some (PFloat y) => Ok (PFloat (SFsub prec emax x y))
  | Some (PInt x), Some (PFloat y) =>
      fx <- float_of_int x ;; Ok (PFloat (SFsub prec emax fx y))
  | Some (PFloat x), Some (PInt y) =>
      fy <- float_of_int y ;; Ok (PFloat (SFsub prec emax x fy))
  | _, _ => Raise TypeError
  end.

(** [int(n)]: truncation toward zero. *)
Definition py_int (n : pynum) : result Z :=
  match n with
  | PInt z => Ok z
  | PFloat S754_nan => Raise ValueError
  | PFloat (S754_infinity _) => Raise OverflowError
  | PFloat (S754_zero _) => Ok 0%Z
  | PFloat (S754_finite s m e) =>
      Ok (cond_Zopp s
            (match e with
             | Z0 => Zpos m
             | Zpos p => Zpos m * Z.pow_pos 2 p
             | Zneg p => Zpos m / Z.pow_pos 2 p
             end))%Z
  end.

(** ** Python operations on decoded values *)

Fixpoint lookup {A : Type} (key : string) (fields : list (string * A))
  : option A :=
  match fields with
  | [] => None
  | (k, v) :: rest => if String.eqb k key then Some v else lookup key rest
  end.

(** [a is b], where it differs from [a == b]: [json.loads] returns one and
    the same object for every [NaN] of a document, and a [nan] is not equal
    to itself.  Every other value that is identical to another is also
    equal to it. *)
Definition py_is_nan (v : json) : bool :=
  match v with
  | JFloat S754_nan => true
  | _ => false
  end.

(** [a == b].  The items of two lists and the values of two dicts are
    compared with [is] first, then with [==]. *)
Fixpoint py_eq (a b : json) {struct a} : bool :=
  match a, b with
  | JNull, JNull => true
  | JStr s, JStr t => String.eqb s t
  | JArr l1, JArr l2 =>
      (fix list_eq (l1 l2 : list json) {struct l1} : bool :=
         match l1, l2 with
         | [], [] => true
         | x :: xs, y :: ys =>
             (py_is_nan x && py_is_nan y || py_eq x y) && list_eq xs ys
         | _, _ => false
         end) l1 l2
  | JObj f1, JObj f2 =>
      Nat.eqb (List.length f1) (List.length f2)
      && (fix all_in (f1 : list (string * json)) {struct f1} : bool :=
            match f1 with
            | [] => true
            | (k, v) :: rest =>
                match lookup k f2 with
                | Some w => py_is_nan v && py_is_nan w || py_eq v w
                | None => false
                end && all_in rest
            end) f1
  | _, _ =>
      match as_number a, as_number b with
      | Some x, Some y => num_eq x y
      | _, _ => false
      end
  end.

(** [a is b or a == b]: the test a list applies to its items and a dict
    to its keys. *)
Definition py_same (a b : json) : bool :=
  py_is_nan a && py_is_nan b || py_eq a b.

(** [a < b]; unorderable operands raise [TypeError].  Two lists are
    ordered by their first items that are not the same. *)
Fixpoint py_lt (a b : json) {struct a} : result bool :=
  match a, b with
  | JStr s, JStr t => Ok (String.ltb s t)
  | JArr l1, JArr l2 =>
      (fix list_lt (l1 l2 : list json) {struct l1} : result bool :=
         match l1, l2 with
         | [], [] => Ok false
         | [], _ :: _ => Ok true
         | _ :: _, [] => Ok false
         | x :: xs, y :: ys =>
             if py_same x y then list_lt xs ys else py_lt x y
         end) l1 l2
  | _, _ =>
      match as_number a, as_number b with
      | Some x, Some y => Ok (num_lt x y)
      | _, _ => Raise TypeError
      end
  end.

(** [a > b] *)
Definition py_gt (a b : json) : result bool := py_lt b a.

(** [bool(v)], as in [not v]. *)
Definition py_truthy (v : json) : bool :=
  match v with
  | JNull => false
  | JBool b => b
  | JInt z => negb (z =? 0)%Z
  | JFloat (S754_zero _) => false
  | JFloat _ => true
  | JStr s => negb (String.eqb s "")
  | JArr l => match l with [] => false | _ => true end
  | JObj f => match f with [] => false | _ => true end
  end.

(** [key in v] for a [str] key. *)
Definition py_contains (key : string) (v : json) : result bool :=
  match v with
  | JObj fields =>
      Ok (match lookup key fields with Some _ => true | None => false end)
  | JArr items => Ok (existsb (fun item => py_same item (JStr key)) items)
  | JStr s =>
      Ok (match String.index 0 key s with Some _ => true | None => false end)
  | _ => Raise TypeError
  end.

(** [v[key]] for a [str] key. *)
Definition py_getitem (v : json) (key : string) : result json :=
  match v with
  | JObj fields =>
      match lookup key fields with
      | Some w => Ok w
      | None => Raise KeyError
      end
  | _ => Raise TypeError
  end.

(** [v.get(key, default)]: only a [dict] has the method. *)
Definition py_get (v : json) (key : string) (default : json) : result json :=
  match v with
  | JObj fields =>
      Ok (match lookup key fields with Some w => w | None => default end)
  | _ => Raise AttributeError
  end.

(** [len(v)] *)
Definition py_len (v : json) : result Z :=
  match v with
  | JArr items => Ok (Z.of_nat (List.length items))
  | JObj fields => Ok (Z.of_nat (List.length fields))
  | JStr s => Ok (Z.of_nat (String.length s))
  | _ => Raise TypeError
  end.

(** The items a [for] loop over [v] visits. *)
Definition py_iter (v : json) : result (list json) :=
  match v with
  | JArr items => Ok items
  | JObj fields => Ok (map (fun kv => JStr (fst kv)) fields)
  | JStr s =>
      Ok (map (fun c => JStr (String c EmptyString)) (list_ascii_of_string s))
  | _ => Raise TypeError
  end.

(** [min(items)] and [max(items)]: the first least and first greatest item. *)
Fixpoint min_loop (items : list json) (minitem : json) : result json :=
  match items with
  | [] => Ok minitem
  | item :: rest =>
      c <- py_lt item minitem ;;
      min_loop rest (if c then item else minitem)
  end.

Fixpoint max_loop (items : list json) (maxitem : json) : result json :=
  match items with
  | [] => Ok maxitem
  | item :: rest =>
      c <- py_gt item maxitem ;;
      max_loop rest (if c then item else maxitem)
  end.

Definition py_min (items : list json) : result json :=
  match items with
  | [] => Raise ValueError
  | first :: rest => min_loop rest first
  end.

Definition py_max (items : list json) : result json :=
  match items with
  | [] => Raise ValueError
  | first :: rest => max_loop rest first
  end.

Fixpoint mapM {A B : Type} (f : A -> result B) (l : list A)
  : result (list B) :=
  match l with
  | [] => Ok []
  | a :: rest => b <- f a ;; bs <- mapM f rest ;; Ok (b :: bs)
  end.

(** ** The metadata record *)

(** The [entity_counts] dictionary: keys in insertion order. *)
Definition counter : Type := list (json * Z).

Record blueprint_metadata : Type := {
  name : json;
  description : json;
  entity_count : Z;
  entity_counts : counter;
  width : Z;
  height : Z;
  version_major : Z;
  version_minor : Z;
  version_patch : Z
}.

Record book_metadata : Type := {
  book_name : json;
  book_description : json;
  blueprint_count : Z
}.

(** The value of the ["type"] key selects the variant. *)
Inductive metadata : Type :=
| blueprint (m : blueprint_metadata)
| blueprint_book (m : book_metadata).

Record dimensions : Type := { dim_width : Z; dim_height : Z }.

Record version : Type := { major : Z; minor : Z; patch : Z }.

(** ** The metadata extractor *)

Definition missing_key : string :=
  "Invalid blueprint data: missing 'blueprint' or 'blueprint_book' key".

(** Only [list] and [dict] values are unhashable in a decoded document. *)
Definition hashable (v : json) : bool :=
  match v with
  | JArr _ | JObj _ => false
  | _ => true
  end.

(** [d.get(key, default)] on the counter: a key is found by identity or
    equality. *)
Fixpoint counter_get (d : counter) (key : json) (default : Z) : Z :=
  match d with
  | [] => default
  | (k, n) :: rest =>
      if py_same k key then n else counter_get rest key default
  end.

(** [d[key] = value] on the counter. *)
Fixpoint counter_set (d : counter) (key : json) (value : Z) : counter :=
  match d with
  | [] => [(key, value)]
  | (k, n) :: rest =>
      if py_same k key then (k, value) :: rest
      else (k, n) :: counter_set rest key value
  end.

(** The loop that counts entities by type. *)
Fixpoint count_entities (entities : list json) (entity_counts : counter)
  : result counter :=
  match entities with
  | [] => Ok entity_counts
  | entity :: rest =>
      entity_name <- py_get entity "name" (JStr "unknown") ;;
      if hashable entity_name then
        count_entities rest
          (counter_set entity_counts entity_name
             (counter_get entity_counts entity_name 0 + 1)%Z)
      else Raise TypeError
  end.

(** [[p.get(key, 0) for p in positions if key in p]] *)
Fixpoint coordinates (key : string) (positions : list json)
  : result (list json) :=
  match positions with
  | [] => Ok []
  | p :: rest =>
      c <- py_contains key p ;;
      if c then
        v <- py_get p key (JInt 0) ;;
        vs <- coordinates key rest ;;
        Ok (v :: vs)
      else coordinates key rest
  end.

Definition is_empty {A : Type} (l : list A) : bool :=
  match l with
  | [] => true
  | _ => false
  end.

(** [BlueprintParser._calculate_dimensions] *)
Definition _calculate_dimensions (entities : json) : result dimensions :=
  if negb (py_truthy entities) then Ok {| dim_width := 0; dim_height := 0 |}
  else
    items <- py_iter entities ;;
    positions <- mapM (fun e => py_get e "position" (JObj [])) items ;;
    xs <- coordinates "x" positions ;;
    ys <- coordinates "y" positions ;;
    if is_empty xs || is_empty ys then
      Ok {| dim_width := 0; dim_height := 0 |}
    else
      min_x <- py_min xs ;;
      max_x <- py_max xs ;;
      min_y <- py_min ys ;;
      max_y <- py_max ys ;;
      dx <- py_sub max_x min_x ;;
      w <- py_int dx ;;
      dy <- py_sub max_y min_y ;;
      h <- py_int dy ;;
      Ok {| dim_width := w + 1; dim_height := h + 1 |}%Z.

Definition zero_version : version := {| major := 0; minor := 0; patch := 0 |}.

(** [v >> n] for an [int] (or [bool]) [v]. *)
Definition py_rshift (v : json) (n : Z) : result Z :=
  match as_number v with
  | Some (PInt z) => Ok (Z.shiftr z n)
  | _ => Raise TypeError
  end.

(** [BlueprintParser._decode_version] *)
Definition _decode_version (version_int : json) : result version :=
  if py_eq version_int (JInt 0) then
    Ok {| major := 0; minor := 0; patch := 0 |}
  else
    hi <- py_rshift version_int 48 ;;
    mid <- py_rshift version_int 32 ;;
    lo <- py_rshift version_int 16 ;;
    Ok {| major := Z.land hi 65535;
          minor := Z.land mid 65535;
          patch := Z.land lo 65535 |}.

(** The single-blueprint path of [extract_metadata]. *)
Definition extract_blueprint (bp : json) : result metadata :=
  name <- py_get bp "label" (JStr "Untitled Blueprint") ;;
  description <- py_get bp "description" (JStr "") ;;
  entities <- py_get bp "entities" (JArr []) ;;
  items <- py_iter entities ;;
  entity_counts <- count_entities items [] ;;
  dimensions <- _calculate_dimensions entities ;;
  version_int <- py_get bp "version" (JInt 0) ;;
  version <- _decode_version version_int ;;
  entity_count <- py_len entities ;;
  Ok (blueprint
        {| name := name;
           description := description;
           entity_count := entity_count;
           entity_counts := entity_counts;
           width := dim_width dimensions;
           height := dim_height dimensions;
           version_major := major version;
           version_minor := minor version;
           version_patch := patch version |}).

(** The book path of [extract_metadata]. *)
Definition extract_book (book : json) : result metadata :=
  name <- py_get book "label" (JStr "Untitled Blueprint Book") ;;
  description <- py_get book "description" (JStr "") ;;
  blueprints <- py_get book "blueprints" (JArr []) ;;
  blueprint_count <- py_len blueprints ;;
  Ok (blueprint_book
        {| book_name := name;
           book_description := description;
           blueprint_count := blueprint_count |}).

(** [BlueprintParser.extract_metadata] *)
Definition extract_metadata (blueprint_data : json) : result metadata :=
  has_blueprint <- py_contains "blueprint" blueprint_data ;;
  if has_blueprint then
    bp <- py_getitem blueprint_data "blueprint" ;;
    extract_blueprint bp
  else
    has_book <- py_contains "blueprint_book" blueprint_data ;;
    if has_book then
      book <- py_getitem blueprint_data "blueprint_book" ;;
      extract_book book
    else Raise (BlueprintParseError missing_key).

(** ** The decoder *)

Definition must_start_with_version_0 : string :=
  "Invalid blueprint string: must start with version '0'".

Definition failed_to_decode (e : exn) : string :=
  ("Failed to decode blueprint: " ++ exn_str e)%string.

Section Decoder.

(** The [zlib] and [json] modules of the Python standard library. *)
Variable zlib_compress : list byte -> list byte.
Variable zlib_decompress : list byte -> result (list byte).
Variable utf8_json : json -> list byte.
Variable json_loads : list byte -> result json.

(** [BlueprintParser.decode] *)
Definition decode (blueprint_string : string) : result json :=
  try_except
    (if negb (startswith blueprint_string "0") then
       Raise (BlueprintParseError must_start_with_version_0)
     else
       let encoded_data := slice_from_1 blueprint_string in
       compressed_data <- Base64.b64decode encoded_data ;;
       json_data <- zlib_decompress compressed_data ;;
       blueprint_data <- json_loads json_data ;;
       Ok blueprint_data)
    (fun e =>
       match e with
       | binascii_Error _ | zlib_error _ | JSONDecodeError _ =>
           Raise (BlueprintParseError (failed_to_decode e))
       | _ => Raise e
       end).

(** [BlueprintParser.parse] *)
Definition parse (blueprint_string : string) : result metadata :=
  blueprint_data <- decode blueprint_string ;;
  metadata <- extract_metadata blueprint_data ;;
  Ok metadata.

(** The wire format: ["0" + base64std(deflate(utf8_json(document)))]. *)
Definition encode (document : json) : string :=
  String "0" (Base64.b64encode (zlib_compress (utf8_json document))).

End Decoder.

(** The two error kinds of the specification.  Both are raised as
    [BlueprintParseError]; the message tells them apart. *)
Definition FormatError (e : exn) : Prop :=
  e = BlueprintParseError must_start_with_version_0
  \/ exists cause, e = BlueprintParseError (failed_to_decode cause).

Definition SchemaError (e : exn) : Prop :=
  e = BlueprintParseError missing_key.

(** ** Recorded library results

    Inputs and outputs of [json.dumps], [zlib.compress] and
    [base64.b64encode] for two documents, used to run the decoder on
    concrete data. *)

Module Recorded.

Definition half : spec_float := S754_finite false 4503599627370496 (-53).
Definition two_and_half : spec_float :=
  S754_finite false 5629499534213120 (-51).

Definition sample_document : json :=
  JObj
    [("blueprint",
      JObj
        [("item", JStr "blueprint");
         ("label", JStr "Test Blueprint");
         ("description", JStr "A test blueprint for unit testing");
         ("entities",
          JArr
            [JObj
               [("entity_number", JInt 1);
                ("name", JStr "transport-belt");
                ("position", JObj [("x", JFloat half); ("y", JFloat half)])];
             JObj
               [("entity_number", JInt 2);
                ("name", JStr "inserter");
                ("position",
                 JObj [("x", JFloat two_and_half); ("y", JFloat half)])]]);
         ("version", JInt 281474976710656)])].

Definition array_document : json := JArr [JStr "blueprint"].

(** The blueprint of the test suite, as [json.dumps], [zlib.compress] and
    [base64.b64encode] write it. *)
Definition sample_json : list byte :=
   [x7b; x22; x62; x6c; x75; x65; x70; x72; x69; x6e; x74; x22; x3a; x20;
    x7b; x22; x69; x74; x65; x6d; x22; x3a; x20; x22; x62; x6c; x75; x65;
    x70; x72; x69; x6e; x74; x22; x2c; x20; x22; x6c; x61; x62; x65; x6c;
    x22; x3a; x20; x22; x54; x65; x73; x74; x20; x42; x6c; x75; x65; x70;
    x72; x69; x6e; x74; x22; x2c; x20; x22; x64; x65; x73; x63; x72; x69;
    x70; x74; x69; x6f; x6e; x22; x3a; x20; x22; x41; x20; x74; x65; x73;
    x74; x20; x62; x6c; x75; x65; x70; x72; x69; x6e; x74; x20; x66; x6f;
    x72; x20; x75; x6e; x69; x74; x20; x74; x65; x73; x74; x69; x6e; x67;
    x22; x2c; x20; x22; x65; x6e; x74; x69; x74; x69; x65; x73; x22; x3a;
    x20; x5b; x7b; x22; x65; x6e; x74; x69; x74; x79; x5f; x6e; x75; x6d;
    x62; x65; x72; x22; x3a; x20; x31; x2c; x20; x22; x6e; x61; x6d; x65;
    x22; x3a; x20; x22; x74; x72; x61; x6e; x73; x70; x6f; x72; x74; x2d;
    x62; x65; x6c; x74; x22; x2c; x20; x22; x70; x6f; x73; x69; x74; x69;
    x6f; x6e; x22; x3a; x20; x7b; x22; x78; x22; x3a; x20; x30; x2e; x35;
    x2c; x20; x22; x79; x22; x3a; x20; x30; x2e; x35; x7d; x7d; x2c; x20;
    x7b; x22; x65; x6e; x74; x69; x74; x79; x5f; x6e; x75; x6d; x62; x65;
    x72; x22; x3a; x20; x32; x2c; x20; x22; x6e; x61; x6d; x65; x22; x3a;
    x20; x22; x69; x6e; x73; x65; x72; x74; x65; x72; x22; x2c; x20; x22;
    x70; x6f; x73; x69; x74; x69; x6f; x6e; x22; x3a; x20; x7b; x22; x78;
    x22; x3a; x20; x32; x2e; x35; x2c; x20; x22; x79; x22; x3a; x20; x30;
    x2e; x35; x7d; x7d; x5d; x2c; x20; x22; x76; x65; x72; x73; x69; x6f;
    x6e; x22; x3a; x20; x32; x38; x31; x34; x37; x34; x39; x37; x36; x37;
    x31; x30; x36; x35; x36; x7d; x7d].
Definition sample_deflated : list byte :=
   [x78; x9c; x6d; x8e; x4d; x0a; xc2; x40; x0c; x85; xaf; x32; xcc; xba;
    x8a; x2d; xfd; x51; x77; x7a; x06; x77; x22; xd2; x6a; x94; x40; x9b;
    x96; x99; x54; x2c; xc3; xdc; xdd; x4c; x2b; x52; xd1; x4d; x48; xbe;
    xbc; xf7; x12; xa7; xab; xba; x87; xce; x20; xb1; xde; x2a; xa7; x91;
    xa1; x91; x66; x46; x23; xa5; xeb; xb2; x82; x3a; xd0; x03; x58; x56;
    xfb; xf9; xea; x0a; xf6; x62; xb0; x63; x6c; x29; x08; x76; x8a; x83;
    xe4; xe3; x56; xb7; xd6; xa8; x9e; x90; x47; x8e; x74; x0f; x1e; x20;
    x46; x46; xb0; x62; x38; xba; x69; x1a; xce; xd4; x37; x15; x18; x41;
    xb1; x28; xa8; x6c; x20; xc4; xb1; x29; xc9; x76; xad; xe1; x85; x3c;
    x30; xde; xeb; x5a; x8b; xef; x63; x4e; x3f; xa5; xae; x96; x99; xe0;
    x61; xea; xbc; x8f; xd4; x6f; x62; x32; x4b; x44; xb2; x60; x58; xf0;
    xbf; xac; xe4; x3b; xeb; x24; xc3; x03; x8c; x9d; x24; xc9; x3a; x4e;
    x8b; x74; x53; xe4; x45; xbc; xca; xb3; xdc; xfb; x17; x1a; xdd; x63;
    x68].
Definition sample_wire : string :=
  "0eJxtjk0KwkAMha8yzLqKLf1Rd3oGdyLSapRAm5aZVCzD3N1MK1LRTUi+vPcSp6u6h84gsd4qp5GhkWZGI6XrsoI60ANYVvv56gr2YrBjbCkIdoqD5ONWt9aonpBHjnQPHiBGRrBiOLppGs7UNxUYQbEoqGwgxLEpyXat4YU8MN7rWovvY04/pa6WmeBh6ryP1G9iMktEsmBY8L+s5DvrJMMDjJ0kyTpOi3RT5EW8yrPc+xca3WNo".
(** The JSON array with the single item [blueprint]. *)
Definition array_json : list byte :=
   [x5b; x22; x62; x6c; x75; x65; x70; x72; x69; x6e; x74; x22; x5d].
Definition array_deflated : list byte :=
   [x78; x9c; x8b; x56; x4a; xca; x29; x4d; x2d; x28; xca; xcc; x2b; x51;
    x8a; x05; x00; x21; x75; x04; xd2].
Definition array_wire : string :=
  "0eJyLVkrKKU0tKMrMK1GKBQAhdQTS".

Fixpoint bytes_eqb (a b : list byte) : bool :=
  match a, b with
  | [], [] => true
  | x :: a', y :: b' => Byte.eqb x y && bytes_eqb a' b'
  | _, _ => false
  end.

(** A library that knows one document. *)
Record vector : Type := {
  v_document : json;
  v_json : list byte;
  v_deflated : list byte
}.

Definition sample : vector :=
  {| v_document := sample_document;
     v_json := sample_json;
     v_deflated := sample_deflated |}.

Definition array : vector :=
  {| v_document := array_document;
     v_json := array_json;
     v_deflated := array_deflated |}.

Definition utf8_json (v : vector) (_ : json) : list byte := v_json v.

Definition zlib_compress (v : vector) (_ : list byte) : list byte :=
  v_deflated v.

Definition zlib_decompress (v : vector) (data : list byte)
  : result (list byte) :=
  if bytes_eqb data (v_deflated v) then Ok (v_json v)
  else Raise (zlib_error "Error -3 while decompressing data").

Definition json_loads (v : vector) (data : list byte) : result json :=
  if bytes_eqb data (v_json v) then Ok (v_document v)
  else Raise (JSONDecodeError "Expecting value").



(** A book of three empty entries. *)
Definition book_document : json :=
  JObj [("blueprint_book",
         JObj [("label", JStr "X");
               ("blueprints", JArr [JObj []; JObj []; JObj []])])].
Definition book_json : list byte :=
   [x7b; x22; x62; x6c; x75; x65; x70; x72; x69; x6e; x74; x5f; x62; x6f;
    x6f; x6b; x22; x3a; x20; x7b; x22; x6c; x61; x62; x65; x6c; x22; x3a;
    x20; x22; x58; x22; x2c; x20; x22; x62; x6c; x75; x65; x70; x72; x69;
    x6e; x74; x73; x22; x3a; x20; x5b; x7b; x7d; x2c; x20; x7b; x7d; x2c;
    x20; x7b; x7d; x5d; x7d; x7d].
Definition book_deflated : list byte :=
   [x78; x9c; xab; x56; x4a; xca; x29; x4d; x2d; x28; xca; xcc; x2b; x89;
    x4f; xca; xcf; xcf; x56; xb2; x52; xa8; x56; xca; x49; x4c; x4a; xcd;
    x01; xb2; x94; x22; x94; x74; x14; x10; x0a; x8a; x81; x42; xd1; xd5;
    xb5; x3a; x0a; x10; x1c; x5b; x5b; x0b; x00; x9c; x60; x15; x12].
Definition book_wire : string :=
  "0eJyrVkrKKU0tKMrMK4lPys/PVrJSqFbKSUxKzQGylCKUdBQQCoqBQtHVtToKEBxbWwsAnGAVEg==".

Definition book : vector :=
  {| v_document := book_document;
     v_json := book_json;
     v_deflated := book_deflated |}.


End Recorded.

(** ** Characters the base64 decoder skips *)

(** A character that is neither in the alphabet nor the pad. *)
Definition outside_alphabet (c : ascii) : bool :=
  negb (Ascii.eqb c Base64.BASE64_PAD)
  && (64 <=? Base64.table_a2b_base64 c)%N.

Fixpoint discard_outside (s : string) : string :=
  match s with
  | EmptyString => EmptyString
  | String c rest =>
      if outside_alphabet c then discard_outside rest
      else String c (discard_outside rest)
  end.

Fixpoint has_outside (s : string) : bool :=
  match s with
  | EmptyString => false
  | String c rest => outside_alphabet c || has_outside rest
  end.

(** ** Entity lists, as their type declares them

    [_calculate_dimensions] takes a [List[Dict[str, Any]]]: every entity
    is an object.  Its position, when it has one, is an object too. *)

(** The position object of an entity, [{}] when it has none. *)
Definition entity_position (e : json) : option (list (string * json)) :=
  match e with
  | JObj fields =>
      match lookup "position" fields with
      | None => Some []
      | Some (JObj p) => Some p
      | Some _ => None
      end
  | _ => None
  end.

Definition placements (es : list json) : bool :=
  forallb (fun e => match entity_position e with
                    | Some _ => true
                    | None => false
                    end) es.

(** Whether the position of an entity has the coordinate [key]. *)
Definition has_coordinate (key : string) (e : json) : bool :=
  match entity_position e with
  | Some p => match lookup key p with Some _ => true | None => false end
  | None => false
  end.

(** The coordinates on one axis, in document order, of the entities
    that have one. *)
Fixpoint axis (key : string) (es : list json) : list json :=
  match es with
  | [] => []
  | e :: rest =>
      match entity_position e with
      | Some p =>
          match lookup key p with
          | Some v => v :: axis key rest
          | None => axis key rest
          end
      | None => axis key rest
      end
  end.


Definition zero_dimensions : dimensions := {| dim_width := 0; dim_height := 0 |}.

(** The extent of a list of integers, counted in cells. *)
Definition span (l : list Z) : Z :=
  match l with
  | [] => 0
  | x :: rest => fold_left Z.max rest x - fold_left Z.min rest x + 1
  end.

(** [fields.get(key, default)] *)
Definition field (key : string) (default : json)
    (fields : list (string * json)) : json :=
  match lookup key fields with
  | Some v => v
  | None => default
  end.

(** An entity at a position, and one with a single coordinate. *)
Definition entity_at (x y : json) : json :=
  JObj [("position", JObj [("x", x); ("y", y)])].

Definition entity_on (key : string) (v : json) : json :=
  JObj [("position", JObj [(key, v)])].


(** ** The histogram *)

(** [entity.get("name", "unknown")] for an entity that is an object. *)
Definition entity_name (e : json) : json :=
  match e with
  | JObj fields => field "name" (JStr "unknown") fields
  | _ => JStr "unknown"
  end.

(** The number of entities whose name is the key [k]. *)
Definition frequency (k : json) (es : list json) : Z :=
  Z.of_nat (List.length (filter (fun e => py_same (entity_name e) k) es)).

(** [sum(d.values())] *)
Definition counter_total (d : counter) : Z :=
  fold_right (fun kv total => snd kv + total)%Z 0%Z d.

(** No two keys of the counter are the same key. *)
Fixpoint distinct_keys (d : counter) : bool :=
  match d with
  | [] => true
  | (k, _) :: rest =>
      negb (existsb (fun kv => py_same k (fst kv)) rest) && distinct_keys rest
  end.

(** One step of the counting loop, for the name [n]. *)
Definition count_one (d : counter) (n : json) : counter :=
  counter_set d n (counter_get d n 0 + 1)%Z.

(** A [nan] is the same key as itself. *)
Definition xreal_same (a b : xreal) : bool :=
  match a, b with
  | XNaN, XNaN => true
  | _, _ => xreal_eq a b
  end.

(** The class of a hashable value as a key. *)
Inductive key_class : Type :=
| KNull
| KStr (s : string)
| KNum (x : xreal).

Definition class_of (v : json) : option key_class :=
  match v with
  | JNull => Some KNull
  | JStr s => Some (KStr s)
  | JBool _ | JInt _ | JFloat _ =>
      match as_number v with
      | Some x => Some (KNum (num_value x))
      | None => None
      end
  | _ => None
  end.

Definition class_same (a b : key_class) : bool :=
  match a, b with
  | KNull, KNull => true
  | KStr s, KStr t => String.eqb s t
  | KNum x, KNum y => xreal_same x y
  | _, _ => false
  end.

Definition hashable_keys (d : counter) : bool :=
  forallb (fun kv => hashable (fst kv)) d.


(** ** The service (app/services/blueprint_service.py)

    [BlueprintService.create_blueprint] parses the string and builds the
    [Blueprint] row from the metadata dict.  The database calls that
    follow are not modelled. *)

(** The values of the dict [extract_metadata] returns. *)
Inductive item : Type :=
| IStr (s : string)
| IJson (v : json)
| IInt (z : Z)
| ICounter (c : counter).

(** The dict [extract_metadata] returns, as its literal is written. *)
Definition metadata_items (md : metadata) : list (string * item) :=
  match md with
  | blueprint_book m =>
      [("type", IStr "blueprint_book");
       ("name", IJson (book_name m));
       ("description", IJson (book_description m));
       ("blueprint_count", IInt (blueprint_count m))]
  | blueprint m =>
      [("type", IStr "blueprint");
       ("name", IJson (name m));
       ("description", IJson (description m));
       ("entity_count", IInt (entity_count m));
       ("entity_counts", ICounter (entity_counts m));
       ("width", IInt (width m));
       ("height", IInt (height m));
       ("version_major", IInt (version_major m));
       ("version_minor", IInt (version_minor m));
       ("version_patch", IInt (version_patch m))]
  end.

(** [metadata[key]] *)
Definition metadata_getitem (md : metadata) (key : string) : result item :=
  match lookup key (metadata_items md) with
  | Some v => Ok v
  | None => Raise KeyError
  end.

(** The columns [create_blueprint] sets on the new [Blueprint]. *)
Record Blueprint : Type := {
  row_name : item;
  row_description : item;
  row_blueprint_string : string;
  row_version_major : item;
  row_version_minor : item;
  row_version_patch : item;
  row_width : item;
  row_height : item;
  row_entity_count : item
}.

Section Service.

Variable zlib_decompress : list byte -> result (list byte).
Variable json_loads : list byte -> result json.

(** [BlueprintService.create_blueprint], up to the [Blueprint(...)] it
    builds. *)
Definition create_blueprint (blueprint_string : string) : result Blueprint :=
  metadata <- parse zlib_decompress json_loads blueprint_string ;;
  name <- metadata_getitem metadata "name" ;;
  description <- metadata_getitem metadata "description" ;;
  version_major <- metadata_getitem metadata "version_major" ;;
  version_minor <- metadata_getitem metadata "version_minor" ;;
  version_patch <- metadata_getitem metadata "version_patch" ;;
  width <- metadata_getitem metadata "width" ;;
  height <- metadata_getitem metadata "height" ;;
  entity_count <- metadata_getitem metadata "entity_count" ;;
  Ok {| row_name := name;
        row_description := description;
        row_blueprint_string := blueprint_string;
        row_version_major := version_major;
        row_version_minor := version_minor;
        row_version_patch := version_patch;
        row_width := width;
        row_height := height;
        row_entity_count := entity_count |}.

End Service.

(** ** Errors of the interpreter

    The exceptions Python itself raises when a value of a document does
    not have the type an operation needs. *)



(** * Properties *)

(** ** Results *)

Lemma bind_Ok {A B : Type} (a : A) (k : A -> result B) :
  bind (Ok a) k = k a.
Proof. reflexivity. Qed.

Lemma bind_Ok_inv {A B : Type} (r : result A) (k : A -> result B) (b : B) :
  bind r k = Ok b -> exists a, r = Ok a /\ k a = Ok b.
Proof.
  destruct r as [a | e]; simpl; intros H.
  - exists a. split; [reflexivity | exact H].
  - discriminate H.
Qed.

(** ** base64: decoding undoes encoding *)

Module Base64Facts.
Import Base64.

Lemma below_spec (n : nat) (P : N -> bool) :
  below n P = true -> forall k, (k < N.of_nat n)%N -> P k = true.
Proof.
  unfold below. intros H k Hk.
  rewrite forallb_forall in H. apply H.
  apply in_map_iff. exists (N.to_nat k). split.
  - apply N2Nat.id.
  - apply in_seq. lia.
Qed.

Lemma to_N_lt_256 (b : byte) : (Byte.to_N b < 256)%N.
Proof. pose proof (Byte.to_N_bounded b). lia. Qed.

Lemma byte_of_to_N (b : byte) : byte_of_N (Byte.to_N b) = b.
Proof.
  unfold byte_of_N.
  rewrite N.mod_small by apply to_N_lt_256.
  now rewrite Byte.of_to_N.
Qed.

Lemma sextet_table (v : N) :
  (v < 64)%N ->
  table_a2b_base64 (b2a v) = v
  /\ Ascii.eqb (b2a v) BASE64_PAD = false
  /\ is_ascii_char (b2a v) = true.
Proof.
  intros Hv.
  assert (H : below 64 (fun v =>
            N.eqb (table_a2b_base64 (b2a v)) v
            && negb (Ascii.eqb (b2a v) BASE64_PAD)
            && is_ascii_char (b2a v)) = true) by (vm_compute; reflexivity).
  apply below_spec with (k := v) in H; [| exact Hv].
  apply andb_prop in H as [H H3]. apply andb_prop in H as [H1 H2].
  apply N.eqb_eq in H1. apply negb_true_iff in H2. auto.
Qed.

(** The bit arithmetic of one group, checked on all bytes. *)
Lemma quad_bounds (a b c : N) :
  (a < 256)%N -> (b < 256)%N -> (c < 256)%N ->
  let '(s0, s1, s2, s3) := quad a b c in
  (s0 < 64 /\ s1 < 64 /\ s2 < 64 /\ s3 < 64)%N.
Proof.
  intros Ha Hb Hc. unfold quad.
  assert (H1 : below 256 (fun a => N.shiftr a 2 <? 64)%N = true)
    by (vm_compute; reflexivity).
  assert (H2 : below 256 (fun a => below 256 (fun b =>
            N.lor (N.shiftl (N.land a 3) 4) (N.shiftr b 4) <? 64)%N) = true)
    by (vm_compute; reflexivity).
  assert (H3 : below 256 (fun b => below 256 (fun c =>
            N.lor (N.shiftl (N.land b 15) 2) (N.shiftr c 6) <? 64)%N) = true)
    by (vm_compute; reflexivity).
  assert (H4 : below 256 (fun c => N.land c 63 <? 64)%N = true)
    by (vm_compute; reflexivity).
  apply below_spec with (k := a) in H1; [| exact Ha].
  apply below_spec with (k := a) in H2; [| exact Ha].
  apply below_spec with (k := b) in H2; [| exact Hb].
  apply below_spec with (k := b) in H3; [| exact Hb].
  apply below_spec with (k := c) in H3; [| exact Hc].
  apply below_spec with (k := c) in H4; [| exact Hc].
  apply N.ltb_lt in H1, H2, H3, H4. auto.
Qed.

Lemma unquad_first (a b : N) :
  (a < 256)%N -> (b < 256)%N ->
  (N.lor (N.shiftl (N.shiftr a 2) 2)
     (N.shiftr (N.lor (N.shiftl (N.land a 3) 4) (N.shiftr b 4)) 4)
   mod 256 = a)%N.
Proof.
  intros Ha Hb.
  assert (H : below 256 (fun a => below 256 (fun b =>
            N.lor (N.shiftl (N.shiftr a 2) 2)
              (N.shiftr (N.lor (N.shiftl (N.land a 3) 4) (N.shiftr b 4)) 4)
            mod 256 =? a)%N) = true)
    by (vm_compute; reflexivity).
  apply below_spec with (k := a) in H; [| exact Ha].
  apply below_spec with (k := b) in H; [| exact Hb].
  now apply N.eqb_eq in H.
Qed.

Lemma unquad_second (a b c : N) :
  (a < 256)%N -> (b < 256)%N -> (c < 256)%N ->
  (N.lor
     (N.shiftl (N.land (N.lor (N.shiftl (N.land a 3) 4) (N.shiftr b 4)) 15) 4)
     (N.shiftr (N.lor (N.shiftl (N.land b 15) 2) (N.shiftr c 6)) 2)
   mod 256 = b)%N.
Proof.
  intros Ha Hb Hc.
  assert (H1 : below 256 (fun a => below 256 (fun b =>
            N.land (N.lor (N.shiftl (N.land a 3) 4) (N.shiftr b 4)) 15
            =? N.shiftr b 4)%N) = true)
    by (vm_compute; reflexivity).
  assert (H2 : below 256 (fun b => below 256 (fun c =>
            N.lor (N.shiftl (N.shiftr b 4) 4)
              (N.shiftr (N.lor (N.shiftl (N.land b 15) 2) (N.shiftr c 6)) 2)
            mod 256 =? b)%N) = true)
    by (vm_compute; reflexivity).
  apply below_spec with (k := a) in H1; [| exact Ha].
  apply below_spec with (k := b) in H1; [| exact Hb].
  apply below_spec with (k := b) in H2; [| exact Hb].
  apply below_spec with (k := c) in H2; [| exact Hc].
  apply N.eqb_eq in H1, H2. now rewrite H1.
Qed.

Lemma unquad_third (b c : N) :
  (b < 256)%N -> (c < 256)%N ->
  (N.lor
     (N.shiftl (N.land (N.lor (N.shiftl (N.land b 15) 2) (N.shiftr c 6)) 3) 6)
     (N.land c 63)
   mod 256 = c)%N.
Proof.
  intros Hb Hc.
  assert (H : below 256 (fun b => below 256 (fun c =>
            N.lor
              (N.shiftl
                 (N.land (N.lor (N.shiftl (N.land b 15) 2) (N.shiftr c 6)) 3) 6)
              (N.land c 63)
            mod 256 =? c)%N) = true)
    by (vm_compute; reflexivity).
  apply below_spec with (k := b) in H; [| exact Hb].
  apply below_spec with (k := c) in H; [| exact Hc].
  now apply N.eqb_eq in H.
Qed.

Lemma byte_of_N_eq (n : N) (b : byte) :
  (n mod 256 = Byte.to_N b)%N -> byte_of_N n = b.
Proof.
  intros H. unfold byte_of_N. rewrite H. now rewrite Byte.of_to_N.
Qed.

(** One step of the loop on an alphabet character. *)
Lemma a2b_loop_sextet (v : N) (rest : string) (q lc p : N) (acc : list byte) :
  (v < 64)%N ->
  a2b_loop (String (b2a v) rest) q lc p acc =
  match q with
  | 0%N => a2b_loop rest 1%N v 0%N acc
  | 1%N =>
      a2b_loop rest 2%N (N.land v 15) 0%N
        (byte_of_N (N.lor (N.shiftl lc 2) (N.shiftr v 4)) :: acc)
  | 2%N =>
      a2b_loop rest 3%N (N.land v 3) 0%N
        (byte_of_N (N.lor (N.shiftl lc 4) (N.shiftr v 2)) :: acc)
  | _ =>
      a2b_loop rest 0%N 0%N 0%N
        (byte_of_N (N.lor (N.shiftl lc 6) v) :: acc)
  end.
Proof.
  intros Hv. destruct (sextet_table v Hv) as (Ht & Hp & _).
  cbn [a2b_loop]. rewrite Hp, Ht.
  apply N.leb_gt in Hv. rewrite Hv. reflexivity.
Qed.

Lemma a2b_loop_pad2 (lc : N) (acc : list byte) :
  a2b_loop "==" 2%N lc 0%N acc = Ok (rev acc).
Proof. reflexivity. Qed.

Lemma a2b_loop_pad1 (lc : N) (acc : list byte) :
  a2b_loop "=" 3%N lc 0%N acc = Ok (rev acc).
Proof. reflexivity. Qed.

(** The loop, started at a group boundary on an encoding, writes the
    encoded bytes. *)
Lemma a2b_loop_b64encode :
  forall (bs : list byte) (lc p : N) (acc : list byte),
    a2b_loop (b64encode bs) 0%N lc p acc = Ok (rev acc ++ bs).
Proof.
  fix IH 1.
  intros [| a [| b [| c rest]]] lc p acc.
  - cbn. now rewrite app_nil_r.
  - pose proof (to_N_lt_256 a) as Ha.
    assert (H0 : (0 < 256)%N) by lia.
    pose proof (quad_bounds _ _ _ Ha H0 H0) as (B0 & B1 & _).
    cbn [b64encode quad].
    rewrite (a2b_loop_sextet _ _ _ _ _ _ B0).
    rewrite (a2b_loop_sextet _ _ _ _ _ _ B1).
    rewrite a2b_loop_pad2.
    rewrite (byte_of_N_eq _ a (unquad_first _ _ Ha H0)).
    cbn [rev]. reflexivity.
  - pose proof (to_N_lt_256 a) as Ha. pose proof (to_N_lt_256 b) as Hb.
    assert (H0 : (0 < 256)%N) by lia.
    pose proof (quad_bounds _ _ _ Ha Hb H0) as (B0 & B1 & B2 & _).
    cbn [b64encode quad].
    rewrite (a2b_loop_sextet _ _ _ _ _ _ B0).
    rewrite (a2b_loop_sextet _ _ _ _ _ _ B1).
    rewrite (a2b_loop_sextet _ _ _ _ _ _ B2).
    rewrite a2b_loop_pad1.
    rewrite (byte_of_N_eq _ a (unquad_first _ _ Ha Hb)).
    rewrite (byte_of_N_eq _ b (unquad_second _ _ _ Ha Hb H0)).
    cbn [rev]. now rewrite <- app_assoc.
  - pose proof (to_N_lt_256 a) as Ha. pose proof (to_N_lt_256 b) as Hb.
    pose proof (to_N_lt_256 c) as Hc.
    pose proof (quad_bounds _ _ _ Ha Hb Hc) as (B0 & B1 & B2 & B3).
    cbn [b64encode quad].
    rewrite (a2b_loop_sextet _ _ _ _ _ _ B0).
    rewrite (a2b_loop_sextet _ _ _ _ _ _ B1).
    rewrite (a2b_loop_sextet _ _ _ _ _ _ B2).
    rewrite (a2b_loop_sextet _ _ _ _ _ _ B3).
    rewrite (byte_of_N_eq _ a (unquad_first _ _ Ha Hb)).
    rewrite (byte_of_N_eq _ b (unquad_second _ _ _ Ha Hb Hc)).
    rewrite (byte_of_N_eq _ c (unquad_third _ _ Hb Hc)).
    rewrite IH. cbn [rev]. now rewrite <- !app_assoc.
Qed.

Lemma is_ascii_b64encode :
  forall bs : list byte, is_ascii (b64encode bs) = true.
Proof.
  fix IH 1.
  intros [| a [| b [| c rest]]].
  - reflexivity.
  - pose proof (to_N_lt_256 a) as Ha.
    assert (H0 : (0 < 256)%N) by lia.
    pose proof (quad_bounds _ _ _ Ha H0 H0) as (B0 & B1 & _).
    cbn [b64encode quad is_ascii].
    destruct (sextet_table _ B0) as (_ & _ & ->).
    destruct (sextet_table _ B1) as (_ & _ & ->).
    reflexivity.
  - pose proof (to_N_lt_256 a) as Ha. pose proof (to_N_lt_256 b) as Hb.
    assert (H0 : (0 < 256)%N) by lia.
    pose proof (quad_bounds _ _ _ Ha Hb H0) as (B0 & B1 & B2 & _).
    cbn [b64encode quad is_ascii].
    destruct (sextet_table _ B0) as (_ & _ & ->).
    destruct (sextet_table _ B1) as (_ & _ & ->).
    destruct (sextet_table _ B2) as (_ & _ & ->).
    reflexivity.
  - pose proof (to_N_lt_256 a) as Ha. pose proof (to_N_lt_256 b) as Hb.
    pose proof (to_N_lt_256 c) as Hc.
    pose proof (quad_bounds _ _ _ Ha Hb Hc) as (B0 & B1 & B2 & B3).
    cbn [b64encode quad is_ascii].
    destruct (sextet_table _ B0) as (_ & _ & ->).
    destruct (sextet_table _ B1) as (_ & _ & ->).
    destruct (sextet_table _ B2) as (_ & _ & ->).
    destruct (sextet_table _ B3) as (_ & _ & ->).
    rewrite IH. reflexivity.
Qed.

(** [b64decode(b64encode(bs)) == bs] *)
Lemma b64decode_b64encode (bs : list byte) :
  b64decode (b64encode bs) = Ok bs.
Proof.
  unfold b64decode, a2b_base64.
  rewrite is_ascii_b64encode, a2b_loop_b64encode. reflexivity.
Qed.

End Base64Facts.

(** ** The decoder *)

Section DecoderFacts.

Variable zlib_compress : list byte -> list byte.
Variable zlib_decompress : list byte -> result (list byte).
Variable utf8_json : json -> list byte.
Variable json_loads : list byte -> result json.

Lemma startswith_0 (s : string) :
  startswith s "0" = true <-> exists rest, s = String "0" rest.
Proof.
  unfold startswith. rewrite prefix_correct. split.
  - destruct s as [| c rest]; simpl; intros H.
    + discriminate H.
    + injection H as ->. now exists rest.
  - intros [rest ->]. simpl. now destruct rest.
Qed.

Lemma decode_marker (rest : string) :
  decode zlib_decompress json_loads (String "0" rest) =
  try_except
    (compressed_data <- Base64.b64decode rest ;;
     json_data <- zlib_decompress compressed_data ;;
     blueprint_data <- json_loads json_data ;;
     Ok blueprint_data)
    (fun e =>
       match e with
       | binascii_Error _ | zlib_error _ | JSONDecodeError _ =>
           Raise (BlueprintParseError (failed_to_decode e))
       | _ => Raise e
       end).
Proof.
  unfold decode.
  assert (H : startswith (String "0" rest) "0" = true)
    by (apply startswith_0; now exists rest).
  rewrite H. reflexivity.
Qed.

(** C6.  A string that does not start with the character [0], the empty
    string included, is rejected by [decode] with the marker error, a
    [FormatError]; no document is returned. *)
Theorem decode_rejects_missing_marker (s : string) :
  (forall rest, s <> String "0" rest) ->
  decode zlib_decompress json_loads s
  = Raise (BlueprintParseError must_start_with_version_0)
  /\ FormatError (BlueprintParseError must_start_with_version_0).
Proof.
  intros Hs. split; [| now left].
  unfold decode.
  destruct (startswith s "0") eqn:E.
  - apply startswith_0 in E as [rest ->]. now elim (Hs rest).
  - reflexivity.
Qed.

(** Decoding a wire encoding goes back through the three layers. *)
Lemma decode_wire (D : json) :
  zlib_decompress (zlib_compress (utf8_json D)) = Ok (utf8_json D) ->
  json_loads (utf8_json D) = Ok D ->
  decode zlib_decompress json_loads (encode zlib_compress utf8_json D) = Ok D.
Proof.
  intros Hz Hj. unfold encode.
  rewrite decode_marker, Base64Facts.b64decode_b64encode.
  cbn [bind]. rewrite Hz. cbn [bind]. rewrite Hj. reflexivity.
Qed.


(** Characters outside the alphabet do not change the state of the
    base64 loop. *)
Lemma a2b_loop_discard_outside :
  forall (s : string) (q lc p : N) (acc : list byte),
    Base64.a2b_loop s q lc p acc
    = Base64.a2b_loop (discard_outside s) q lc p acc.
Proof.
  induction s as [| c rest IH]; intros q lc p acc; [reflexivity |].
  cbn [discard_outside]. unfold outside_alphabet.
  destruct (Ascii.eqb c Base64.BASE64_PAD) eqn:Ep;
    destruct (64 <=? Base64.table_a2b_base64 c)%N eqn:Et;
    cbn [negb andb Base64.a2b_loop]; rewrite ?Ep, ?Et;
    try apply IH;
    repeat match goal with
      | |- context [if ?b then _ else _] => destruct b
      | |- context [match ?q with N0 => _ | Npos _ => _ end] => destruct q
      | |- context [match ?q with xH => _ | xO _ => _ | xI _ => _ end] =>
          destruct q
      end;
    try reflexivity; apply IH.
Qed.

Lemma is_ascii_discard_outside (s : string) :
  is_ascii s = true -> is_ascii (discard_outside s) = true.
Proof.
  induction s as [| c rest IH]; [reflexivity |].
  cbn [is_ascii discard_outside]. intros H.
  apply andb_prop in H as [Hc Hr].
  destruct (outside_alphabet c); cbn [is_ascii]; rewrite ?Hc; auto.
Qed.

(** In an ASCII input that starts with [0], the characters of the
    remainder that are outside the base64 alphabet are discarded: the
    text-decode stage and [decode] give what they give without them, and
    [decode] fails with a [FormatError] of the text-decode stage when
    decoding what is left fails. *)
Theorem decode_discards_outside_alphabet (r : string) :
  is_ascii r = true ->
  Base64.b64decode r = Base64.b64decode (discard_outside r)
  /\ decode zlib_decompress json_loads (String "0" r)
     = decode zlib_decompress json_loads (String "0" (discard_outside r))
  /\ forall msg,
       Base64.b64decode (discard_outside r) = Raise (binascii_Error msg) ->
       decode zlib_decompress json_loads (String "0" r)
       = Raise (BlueprintParseError (failed_to_decode (binascii_Error msg)))
       /\ FormatError
            (BlueprintParseError (failed_to_decode (binascii_Error msg))).
Proof.
  intros Ha.
  assert (Hb : Base64.b64decode r = Base64.b64decode (discard_outside r)).
  { unfold Base64.b64decode, Base64.a2b_base64.
    rewrite Ha, (is_ascii_discard_outside r Ha).
    apply a2b_loop_discard_outside. }
  split; [exact Hb |]. split.
  - rewrite !decode_marker, Hb. reflexivity.
  - intros msg Hm. split.
    + rewrite decode_marker, Hb, Hm. reflexivity.
    + right. now exists (binascii_Error msg).
Qed.

(** C10.  The wire encoding of the JSON array with the single item
    [blueprint] decodes to that array, and [extract_metadata] then raises
    [TypeError], which is neither of the two declared error kinds. *)
Theorem non_object_document_escapes :
  let A := JArr [JStr "blueprint"] in
  zlib_decompress (zlib_compress (utf8_json A)) = Ok (utf8_json A) ->
  json_loads (utf8_json A) = Ok A ->
  decode zlib_decompress json_loads (encode zlib_compress utf8_json A) = Ok A
  /\ extract_metadata A = Raise TypeError
  /\ parse zlib_decompress json_loads (encode zlib_compress utf8_json A)
     = Raise TypeError
  /\ ~ FormatError TypeError
  /\ ~ SchemaError TypeError.
Proof.
  intros A Hz Hj.
  pose proof (decode_wire A Hz Hj) as Hd.
  split; [exact Hd |]. split; [reflexivity |]. split.
  - unfold parse. rewrite Hd. reflexivity.
  - split.
    + intros [H | [cause H]]; discriminate H.
    + intros H; discriminate H.
Qed.

End DecoderFacts.

(** *** The decoder on recorded data *)

Example encode_sample :
  encode (Recorded.zlib_compress Recorded.sample)
    (Recorded.utf8_json Recorded.sample) Recorded.sample_document
  = Recorded.sample_wire.
Proof. vm_compute. reflexivity. Qed.

Example parse_sample :
  parse (Recorded.zlib_decompress Recorded.sample)
    (Recorded.json_loads Recorded.sample) Recorded.sample_wire
  = Ok (blueprint
          {| name := JStr "Test Blueprint";
             description := JStr "A test blueprint for unit testing";
             entity_count := 2;
             entity_counts :=
               [(JStr "transport-belt", 1%Z); (JStr "inserter", 1%Z)];
             width := 3;
             height := 1;
             version_major := 1;
             version_minor := 0;
             version_patch := 0 |}).
Proof. vm_compute. reflexivity. Qed.

Lemma decode_rejects_missing_marker_witness :
  (forall rest, "invalid_blueprint" <> String "0" rest)
  /\ decode (Recorded.zlib_decompress Recorded.sample)
       (Recorded.json_loads Recorded.sample) "invalid_blueprint"
     = Raise (BlueprintParseError must_start_with_version_0).
Proof.
  split.
  - intros rest H. discriminate H.
  - apply (decode_rejects_missing_marker
             (Recorded.zlib_decompress Recorded.sample)
             (Recorded.json_loads Recorded.sample) "invalid_blueprint").
    intros rest H. discriminate H.
Defined.


Lemma decode_discards_outside_alphabet_witness :
  is_ascii "!@#$%^&*()" = true
  /\ Base64.b64decode "!@#$%^&*()" = Base64.b64decode (discard_outside "!@#$%^&*()").
Proof.
  split.
  - reflexivity.
  - apply (decode_discards_outside_alphabet
             (Recorded.zlib_decompress Recorded.sample)
             (Recorded.json_loads Recorded.sample) "!@#$%^&*()").
    reflexivity.
Defined.

(** C8, on the code.  [base64.b64decode] is called without [validate], so
    it skips what is outside the alphabet instead of raising
    [binascii.Error].  The input [0!] starts with the marker and its
    remainder is a character outside the alphabet, yet the text-decode
    stage returns the empty bytes; and the sample blueprint with a [!]
    put after the marker decodes to the sample document, with no error
    at all. *)
Lemma outside_alphabet_not_rejected :
  startswith "0!" "0" = true
  /\ has_outside (slice_from_1 "0!") = true
  /\ Base64.b64decode (slice_from_1 "0!") = Ok []
  /\ let s := String "0" (String "!" (slice_from_1 Recorded.sample_wire)) in
     startswith s "0" = true
     /\ has_outside (slice_from_1 s) = true
     /\ decode (Recorded.zlib_decompress Recorded.sample)
          (Recorded.json_loads Recorded.sample) s
        = Ok Recorded.sample_document.
Proof. vm_compute. repeat split; reflexivity. Qed.

Lemma non_object_document_escapes_witness :
  decode (Recorded.zlib_decompress Recorded.array)
    (Recorded.json_loads Recorded.array)
    (encode (Recorded.zlib_compress Recorded.array)
       (Recorded.utf8_json Recorded.array) (JArr [JStr "blueprint"]))
  = Ok (JArr [JStr "blueprint"])
  /\ extract_metadata (JArr [JStr "blueprint"]) = Raise TypeError.
Proof.
  destruct (non_object_document_escapes
              (Recorded.zlib_compress Recorded.array)
              (Recorded.zlib_decompress Recorded.array)
              (Recorded.utf8_json Recorded.array)
              (Recorded.json_loads Recorded.array)) as (H1 & H2 & _).
  - vm_compute. reflexivity.
  - vm_compute. reflexivity.
  - split; [exact H1 | exact H2].
Defined.


(** ** The version *)

Lemma py_eq_int (a b : Z) : py_eq (JInt a) (JInt b) = (a =? b)%Z.
Proof.
  cbn. unfold num_eq, xreal_eq, num_value, Qcompare. cbn.
  rewrite !Z.mul_1_r.
  destruct (Z.compare_spec a b) as [H | H | H].
  - symmetry. now apply Z.eqb_eq.
  - symmetry. apply Z.eqb_neq. lia.
  - symmetry. apply Z.eqb_neq. lia.
Qed.

Lemma decode_version_int (v : Z) :
  _decode_version (JInt v)
  = Ok {| major := Z.land (Z.shiftr v 48) 65535;
          minor := Z.land (Z.shiftr v 32) 65535;
          patch := Z.land (Z.shiftr v 16) 65535 |}.
Proof.
  unfold _decode_version. rewrite py_eq_int.
  destruct (Z.eqb_spec v 0) as [-> | _]; reflexivity.
Qed.

Lemma field_arith (v n : Z) :
  (0 <= n)%Z -> Z.land (Z.shiftr v n) 65535 = ((v / 2 ^ n) mod 65536)%Z.
Proof.
  intros Hn. rewrite Z.shiftr_div_pow2 by exact Hn.
  change 65535%Z with (Z.ones 16). rewrite Z.land_ones by lia. reflexivity.
Qed.

(** Packing four 16-bit fields into one integer and decoding it gives the
    three upper fields back; the lowest field is dropped. *)
Theorem decode_version_packed (a b c d : Z) :
  (0 <= a < 65536)%Z -> (0 <= b < 65536)%Z -> (0 <= c < 65536)%Z ->
  (0 <= d < 65536)%Z ->
  _decode_version (JInt (a * 2 ^ 48 + b * 2 ^ 32 + c * 2 ^ 16 + d))
  = Ok {| major := a; minor := b; patch := c |}.
Proof.
  intros Ha Hb Hc Hd.
  rewrite decode_version_int, !field_arith by lia.
  change (2 ^ 48)%Z with 281474976710656%Z.
  change (2 ^ 32)%Z with 4294967296%Z.
  change (2 ^ 16)%Z with 65536%Z.
  f_equal. f_equal; Z.div_mod_to_equations; lia.
Qed.

Lemma Ok_inj {A : Type} (a b : A) : Ok a = Ok b -> a = b.
Proof. intros H. now injection H. Qed.

Lemma decode_version_Ok_inv (j : json) (r : version) :
  _decode_version j = Ok r ->
  r = zero_version
  \/ exists z, r = {| major := Z.land (Z.shiftr z 48) 65535;
                      minor := Z.land (Z.shiftr z 32) 65535;
                      patch := Z.land (Z.shiftr z 16) 65535 |}.
Proof.
  unfold _decode_version, py_rshift.
  destruct (py_eq j (JInt 0)).
  - intros H. injection H as <-. now left.
  - destruct (as_number j) as [[z | f] |]; cbn [bind]; intros H.
    + apply Ok_inj in H. right. exists z. now symmetry.
    + discriminate H.
    + discriminate H.
Qed.

Lemma field_range (x : Z) : (0 <= Z.land x 65535 < 65536)%Z.
Proof.
  change 65535%Z with (Z.ones 16). rewrite Z.land_ones by lia.
  apply Z.mod_pos_bound. reflexivity.
Qed.

(** Whatever the version value, the three decoded fields are 16-bit
    numbers. *)
Theorem decode_version_range (j : json) (r : version) :
  _decode_version j = Ok r ->
  (0 <= major r < 65536 /\ 0 <= minor r < 65536 /\ 0 <= patch r < 65536)%Z.
Proof.
  intros H. apply decode_version_Ok_inv in H as [-> | [z ->]];
    cbn [major minor patch zero_version].
  - lia.
  - repeat split; apply field_range.
Qed.

(** Only the bits 16 to 63 of the integer matter. *)
Lemma decode_version_window (v w : Z) :
  ((v / 2 ^ 16) mod 2 ^ 48 = (w / 2 ^ 16) mod 2 ^ 48)%Z ->
  _decode_version (JInt v) = _decode_version (JInt w).
Proof.
  intros H. rewrite !decode_version_int, !field_arith by lia.
  change (2 ^ 48)%Z with 281474976710656%Z in *.
  change (2 ^ 32)%Z with 4294967296%Z.
  change (2 ^ 16)%Z with 65536%Z in *.
  f_equal. f_equal; Z.div_mod_to_equations; lia.
Qed.

Lemma Qpower_2_pos (e : Z) : (0 < Qpower (2 # 1) e)%Q.
Proof. apply Qpower_0_lt. reflexivity. Qed.

Lemma float_value_finite_nonzero (s : bool) (m : positive) (e : Z) :
  xreal_eq (float_value (S754_finite s m e)) (XFinite 0) = false.
Proof.
  cbn [float_value xreal_eq].
  destruct (Qcompare_spec (inject_Z (cond_Zopp s (Z.pos m)) * Qpower (2 # 1) e) 0)
    as [H | H | H]; try reflexivity.
  exfalso.
  apply Qmult_integral in H as [H | H].
  - destruct s; cbn in H; unfold Qeq in H; cbn in H; discriminate H.
  - pose proof (Qpower_2_pos e) as P. rewrite H in P. now apply Qlt_irrefl in P.
Qed.

(** A version that is not an [int]: a [bool] and the float zero decode
    to all zeros, since they equal [0] or shift to it; every other
    value raises [TypeError]. *)
Theorem decode_version_other_types (j : json) :
  _decode_version j
  = match j with
    | JInt v => _decode_version (JInt v)
    | JBool _ | JFloat (S754_zero _) => Ok zero_version
    | _ => Raise TypeError
    end.
Proof.
  destruct j as [| b | v | f | s | l | f]; try reflexivity.
  - now destruct b.
  - destruct f as [s | [|] | | s m e]; try reflexivity.
    unfold _decode_version.
    replace (py_eq (JFloat (S754_finite s m e)) (JInt 0)) with false.
    + reflexivity.
    + symmetry. apply float_value_finite_nonzero.
Qed.

(** C2.  For every integer [v], [_decode_version] returns the three
    fields [(v >> 48) & 0xFFFF], [(v >> 32) & 0xFFFF] and
    [(v >> 16) & 0xFFFF]; the lowest 16 bits do not matter: clearing them
    changes nothing.  The integer [0] gives all zeros, and
    [281474976710656], which is [1 << 48], gives major 1, minor 0 and
    patch 0. *)
Theorem decode_version_formula (v : Z) :
  _decode_version (JInt v)
  = Ok {| major := Z.land (Z.shiftr v 48) 65535;
          minor := Z.land (Z.shiftr v 32) 65535;
          patch := Z.land (Z.shiftr v 16) 65535 |}
  /\ _decode_version (JInt (Z.shiftl (Z.shiftr v 16) 16))
     = _decode_version (JInt v)
  /\ _decode_version (JInt 0) = Ok {| major := 0; minor := 0; patch := 0 |}
  /\ Z.shiftl 1 48 = 281474976710656%Z
  /\ _decode_version (JInt 281474976710656)
     = Ok {| major := 1; minor := 0; patch := 0 |}.
Proof.
  split; [apply decode_version_int |].
  split; [| repeat split].
  apply decode_version_window.
  rewrite Z.shiftl_mul_pow2, Z.shiftr_div_pow2 by lia.
  rewrite Z.div_mul by lia. reflexivity.
Qed.

(** ** The exceptions of the extractor *)

























Lemma extract_blueprint_variant (bp : json) (md : metadata) :
  extract_blueprint bp = Ok md -> exists m, md = blueprint m.
Proof.
  unfold extract_blueprint. intros H.
  repeat (apply bind_Ok_inv in H as (? & _ & H)).
  injection H as <-. eauto.
Qed.

Lemma extract_book_variant (book : json) (md : metadata) :
  extract_book book = Ok md -> exists m, md = blueprint_book m.
Proof.
  unfold extract_book. intros H.
  repeat (apply bind_Ok_inv in H as (? & _ & H)).
  injection H as <-. eauto.
Qed.

Lemma extract_metadata_object (fields : list (string * json)) :
  extract_metadata (JObj fields)
  = match lookup "blueprint" fields with
    | Some bp => extract_blueprint bp
    | None =>
        match lookup "blueprint_book" fields with
        | Some book => extract_book book
        | None => Raise (BlueprintParseError missing_key)
        end
    end.
Proof.
  unfold extract_metadata. cbn [py_contains py_getitem bind].
  destruct (lookup "blueprint" fields); [reflexivity |].
  now destruct (lookup "blueprint_book" fields).
Qed.





(** ** The dimensions *)

Lemma mapM_positions (es : list json) :
  placements es = true ->
  mapM (fun e => py_get e "position" (JObj [])) es
  = Ok (map (fun e => JObj (match entity_position e with
                            | Some p => p
                            | None => []
                            end)) es).
Proof.
  induction es as [| e rest IH]; [reflexivity |].
  cbn [placements forallb]. intros H. apply andb_prop in H as [He Hr].
  cbn [mapM map]. rewrite (IH Hr).
  destruct e as [| | | | | | fields]; try discriminate He.
  cbn [py_get entity_position bind] in *.
  destruct (lookup "position" fields) as [[| | | | | | p] |];
    try discriminate He; reflexivity.
Qed.

Lemma coordinates_axis (key : string) (es : list json) :
  placements es = true ->
  coordinates key
    (map (fun e => JObj (match entity_position e with
                         | Some p => p
                         | None => []
                         end)) es)
  = Ok (axis key es).
Proof.
  induction es as [| e rest IH]; [reflexivity |].
  cbn [placements forallb]. intros H. apply andb_prop in H as [He Hr].
  cbn [map coordinates axis py_contains py_get bind].
  rewrite (IH Hr).
  destruct (entity_position e) as [p |]; [| discriminate He].
  destruct (lookup key p); reflexivity.
Qed.

Lemma calculate_dimensions_axes (es : list json) :
  placements es = true ->
  _calculate_dimensions (JArr es)
  = if is_empty (axis "x" es) || is_empty (axis "y" es)
    then Ok zero_dimensions
    else
      min_x <- py_min (axis "x" es) ;;
      max_x <- py_max (axis "x" es) ;;
      min_y <- py_min (axis "y" es) ;;
      max_y <- py_max (axis "y" es) ;;
      dx <- py_sub max_x min_x ;;
      w <- py_int dx ;;
      dy <- py_sub max_y min_y ;;
      h <- py_int dy ;;
      Ok {| dim_width := w + 1; dim_height := h + 1 |}%Z.
Proof.
  intros H. destruct es as [| e rest]; [reflexivity |].
  unfold _calculate_dimensions.
  cbn [py_truthy negb py_iter bind].
  rewrite (mapM_positions _ H). cbn [bind].
  rewrite !(coordinates_axis _ _ H). cbn [bind]. reflexivity.
Qed.

(** *** Integer coordinates *)

Lemma py_lt_int (a b : Z) : py_lt (JInt a) (JInt b) = Ok (a <? b)%Z.
Proof.
  cbn. unfold num_lt, xreal_lt, num_value, Qcompare. cbn.
  rewrite !Z.mul_1_r. unfold Z.ltb. now destruct (a ?= b)%Z.
Qed.

Lemma min_loop_int (l : list Z) :
  forall m, min_loop (map JInt l) (JInt m) = Ok (JInt (fold_left Z.min l m)).
Proof.
  induction l as [| a rest IH]; intros m; [reflexivity |].
  cbn [map min_loop fold_left]. rewrite py_lt_int. cbn [bind].
  destruct (Z.ltb_spec a m) as [H | H].
  - rewrite IH. now rewrite (Z.min_r m a) by lia.
  - rewrite IH. now rewrite (Z.min_l m a) by lia.
Qed.

Lemma max_loop_int (l : list Z) :
  forall m, max_loop (map JInt l) (JInt m) = Ok (JInt (fold_left Z.max l m)).
Proof.
  induction l as [| a rest IH]; intros m; [reflexivity |].
  cbn [map max_loop fold_left]. unfold py_gt. rewrite py_lt_int. cbn [bind].
  destruct (Z.ltb_spec m a) as [H | H].
  - rewrite IH. now rewrite (Z.max_r m a) by lia.
  - rewrite IH. now rewrite (Z.max_l m a) by lia.
Qed.

Lemma calculate_dimensions_int (es : list json) (xs ys : list Z) :
  placements es = true ->
  axis "x" es = map JInt xs ->
  axis "y" es = map JInt ys ->
  _calculate_dimensions (JArr es)
  = Ok (if is_empty xs || is_empty ys then zero_dimensions
        else {| dim_width := span xs; dim_height := span ys |}).
Proof.
  intros H Hx Hy. rewrite (calculate_dimensions_axes es H), Hx, Hy.
  destruct xs as [| x xs]; [reflexivity |].
  destruct ys as [| y ys]; [reflexivity |].
  cbn [map is_empty orb py_min py_max].
  rewrite !min_loop_int, !max_loop_int. reflexivity.
Qed.

(** *** Numbers of any kind *)









(** *** Lists of integers *)

Lemma fold_min_le (l : list Z) : forall x, (fold_left Z.min l x <= x)%Z.
Proof.
  induction l as [| a rest IH]; intros x; cbn [fold_left]; [lia |].
  specialize (IH (Z.min x a)). lia.
Qed.

Lemma fold_max_ge (l : list Z) : forall x, (x <= fold_left Z.max l x)%Z.
Proof.
  induction l as [| a rest IH]; intros x; cbn [fold_left]; [lia |].
  specialize (IH (Z.max x a)). lia.
Qed.

Lemma span_positive (x : Z) (rest : list Z) : (1 <= span (x :: rest))%Z.
Proof.
  cbn [span]. pose proof (fold_min_le rest x). pose proof (fold_max_ge rest x).
  lia.
Qed.



Lemma axis_nil (key : string) (es : list json) :
  existsb (has_coordinate key) es = false -> axis key es = [].
Proof.
  induction es as [| e rest IH]; [reflexivity |].
  cbn [existsb axis]. unfold has_coordinate at 1. intros H.
  apply orb_false_elim in H as [He Hr].
  destruct (entity_position e) as [p |]; [| now apply IH].
  destruct (lookup key p); [discriminate He | now apply IH].
Qed.

Lemma extract_blueprint_fields (bf : list (string * json)) (es : list json) :
  field "entities" (JArr []) bf = JArr es ->
  extract_blueprint (JObj bf)
  = (entity_counts <- count_entities es [] ;;
     dimensions <- _calculate_dimensions (JArr es) ;;
     version <- _decode_version (field "version" (JInt 0) bf) ;;
     Ok (blueprint
           {| name := field "label" (JStr "Untitled Blueprint") bf;
              description := field "description" (JStr "") bf;
              entity_count := Z.of_nat (List.length es);
              entity_counts := entity_counts;
              width := dim_width dimensions;
              height := dim_height dimensions;
              version_major := major version;
              version_minor := minor version;
              version_patch := patch version |})).
Proof.
  intros He. unfold extract_blueprint. cbn [py_get bind].
  fold (field "label" (JStr "Untitled Blueprint") bf).
  fold (field "description" (JStr "") bf).
  fold (field "entities" (JArr []) bf).
  fold (field "version" (JInt 0) bf).
  rewrite He. cbn [py_iter bind].
  destruct (count_entities es []) as [c | e]; [| reflexivity]. cbn [bind].
  destruct (_calculate_dimensions (JArr es)) as [d | e]; [| reflexivity].
  cbn [bind].
  destruct (_decode_version (field "version" (JInt 0) bf)) as [v | e];
    reflexivity.
Qed.

Lemma extract_metadata_blueprint_inv
    (fields bf : list (string * json)) (es : list json)
    (m : blueprint_metadata) :
  lookup "blueprint" fields = Some (JObj bf) ->
  field "entities" (JArr []) bf = JArr es ->
  extract_metadata (JObj fields) = Ok (blueprint m) ->
  exists c d v,
    count_entities es [] = Ok c
    /\ _calculate_dimensions (JArr es) = Ok d
    /\ _decode_version (field "version" (JInt 0) bf) = Ok v
    /\ m = {| name := field "label" (JStr "Untitled Blueprint") bf;
              description := field "description" (JStr "") bf;
              entity_count := Z.of_nat (List.length es);
              entity_counts := c;
              width := dim_width d;
              height := dim_height d;
              version_major := major v;
              version_minor := minor v;
              version_patch := patch v |}.
Proof.
  intros Hb He. rewrite extract_metadata_object, Hb.
  rewrite (extract_blueprint_fields bf es He). intros H.
  apply bind_Ok_inv in H as (c & Hc & H).
  apply bind_Ok_inv in H as (d & Hd & H).
  apply bind_Ok_inv in H as (v & Hv & H).
  exists c, d, v. repeat split; try assumption.
  injection H as <-. reflexivity.
Qed.




(** C7, as the code has it.  When no entity of the list has an [x]
    coordinate, or none has a [y] coordinate, the dimensions are 0 by 0,
    and so are the width and the height of the record
    [extract_metadata] returns. *)
Theorem empty_axis_zero_dimensions (es : list json) :
  placements es = true ->
  existsb (has_coordinate "x") es = false
  \/ existsb (has_coordinate "y") es = false ->
  _calculate_dimensions (JArr es) = Ok zero_dimensions
  /\ forall (fields bf : list (string * json)) (m : blueprint_metadata),
       lookup "blueprint" fields = Some (JObj bf) ->
       lookup "entities" bf = Some (JArr es) ->
       extract_metadata (JObj fields) = Ok (blueprint m) ->
       width m = 0%Z /\ height m = 0%Z.
Proof.
  intros H Hno.
  assert (Hd : _calculate_dimensions (JArr es) = Ok zero_dimensions).
  { rewrite (calculate_dimensions_axes es H).
    destruct Hno as [E | E]; rewrite (axis_nil _ _ E); [reflexivity |].
    now rewrite orb_true_r. }
  split; [exact Hd |].
  intros fields bf m Hb He Hm.
  destruct (extract_metadata_blueprint_inv fields bf es m Hb) as
    (c & d & v & _ & Hd' & _ & ->); [unfold field; now rewrite He | exact Hm |].
  rewrite Hd in Hd'. injection Hd' as <-. split; reflexivity.
Qed.

Lemma empty_axis_zero_dimensions_witness :
  placements [entity_on "x" (JInt 0); entity_on "x" (JInt 7)] = true
  /\ existsb (has_coordinate "y") [entity_on "x" (JInt 0); entity_on "x" (JInt 7)]
     = false
  /\ _calculate_dimensions (JArr [entity_on "x" (JInt 0); entity_on "x" (JInt 7)])
     = Ok zero_dimensions.
Proof.
  split; [reflexivity |]. split; [reflexivity |].
  apply (empty_axis_zero_dimensions
           [entity_on "x" (JInt 0); entity_on "x" (JInt 7)] eq_refl).
  right. reflexivity.
Defined.

(** C7 fails as stated.  One entity with only an [x] coordinate and one
    with only a [y] coordinate: no entity has both, and the width and
    the height are 1. *)
Lemma separate_axes_give_extent :
  let es := [entity_on "x" (JInt 0); entity_on "y" (JInt 0)] in
  forallb (fun e => negb (has_coordinate "x" e && has_coordinate "y" e)) es
  = true
  /\ extract_metadata (JObj [("blueprint", JObj [("entities", JArr es)])])
     = Ok (blueprint
             {| name := JStr "Untitled Blueprint";
                description := JStr "";
                entity_count := 2;
                entity_counts := [(JStr "unknown", 2%Z)];
                width := 1;
                height := 1;
                version_major := 0;
                version_minor := 0;
                version_patch := 0 |}).
Proof. cbv zeta. split; vm_compute; reflexivity. Qed.




(** ** The histogram *)

(** *** Keys *)

Lemma xreal_same_refl (a : xreal) : xreal_same a a = true.
Proof.
  destruct a as [| | p |]; try reflexivity. cbn.
  now rewrite (proj1 (Qeq_alt p p) (Qeq_refl p)).
Qed.

Lemma xreal_same_sym (a b : xreal) : xreal_same a b = xreal_same b a.
Proof.
  destruct a as [| | p |], b as [| | q |]; try reflexivity. cbn.
  destruct (p ?= q)%Q eqn:E; destruct (q ?= p)%Q eqn:F; try reflexivity.
  - apply Qeq_alt in E. symmetry in E. apply Qeq_alt in E. congruence.
  - apply Qeq_alt in E. symmetry in E. apply Qeq_alt in E. congruence.
  - apply Qeq_alt in F. symmetry in F. apply Qeq_alt in F. congruence.
  - apply Qeq_alt in F. symmetry in F. apply Qeq_alt in F. congruence.
Qed.

Lemma xreal_same_trans (a b c : xreal) :
  xreal_same a b = true -> xreal_same b c = true -> xreal_same a c = true.
Proof.
  destruct a as [| | p |], b as [| | q |], c as [| | r |];
    cbn; try congruence.
  destruct (p ?= q)%Q eqn:E; try discriminate.
  destruct (q ?= r)%Q eqn:F; try discriminate.
  intros _ _. apply Qeq_alt in E, F.
  now rewrite (proj1 (Qeq_alt p r) (Qeq_trans _ _ _ E F)).
Qed.

Lemma py_same_class (a b : json) :
  hashable a = true -> hashable b = true ->
  exists ca cb,
    class_of a = Some ca /\ class_of b = Some cb
    /\ py_same a b = class_same ca cb.
Proof.
  intros Ha Hb.
  destruct a as [| a | a | a | a | a | a]; try discriminate Ha;
    destruct b as [| b | b | b | b | b | b]; try discriminate Hb;
    cbn [class_of as_number];
    eexists; eexists; (split; [reflexivity |]); (split; [reflexivity |]);
    unfold py_same;
    repeat match goal with
      | |- context [JFloat ?f] =>
          is_var f; destruct f as [? | [|] | | ? ? ?]
      end;
    reflexivity.
Qed.

Lemma py_same_refl (a : json) : hashable a = true -> py_same a a = true.
Proof.
  intros Ha. destruct (py_same_class a a Ha Ha) as (ca & cb & E1 & E2 & ->).
  rewrite E1 in E2. injection E2 as <-.
  destruct ca as [| s | x]; cbn [class_same].
  - reflexivity.
  - apply String.eqb_refl.
  - apply xreal_same_refl.
Qed.

Lemma py_same_sym (a b : json) :
  hashable a = true -> hashable b = true -> py_same a b = py_same b a.
Proof.
  intros Ha Hb.
  destruct (py_same_class a b Ha Hb) as (ca & cb & E1 & E2 & ->).
  destruct (py_same_class b a Hb Ha) as (cb' & ca' & E3 & E4 & ->).
  rewrite E1 in E4. rewrite E2 in E3.
  injection E3 as <-. injection E4 as <-.
  destruct ca as [| s | x], cb as [| t | y]; cbn [class_same];
    try reflexivity.
  - apply String.eqb_sym.
  - apply xreal_same_sym.
Qed.

Lemma py_same_trans (a b c : json) :
  hashable a = true -> hashable b = true -> hashable c = true ->
  py_same a b = true -> py_same b c = true -> py_same a c = true.
Proof.
  intros Ha Hb Hc.
  destruct (py_same_class a b Ha Hb) as (ca & cb & E1 & E2 & ->).
  destruct (py_same_class b c Hb Hc) as (cb' & cc & E3 & E4 & ->).
  destruct (py_same_class a c Ha Hc) as (ca' & cc' & E5 & E6 & ->).
  rewrite E1 in E5. rewrite E2 in E3. rewrite E4 in E6.
  injection E3 as <-. injection E5 as <-. injection E6 as <-.
  destruct ca as [| s | x], cb as [| t | y], cc as [| u | z];
    cbn [class_same]; try congruence.
  - rewrite !String.eqb_eq. congruence.
  - apply xreal_same_trans.
Qed.

(** *** The counter *)

Lemma counter_set_total (d : counter) (n : json) (v : Z) :
  counter_total (counter_set d n v)
  = (counter_total d + v - counter_get d n 0)%Z.
Proof.
  unfold counter_total.
  induction d as [| [s x] rest IH]; cbn [counter_set counter_get].
  - cbn [fold_right snd]. lia.
  - destruct (py_same s n); cbn [fold_right snd]; [| rewrite IH]; lia.
Qed.

Lemma count_one_total (d : counter) (n : json) :
  counter_total (count_one d n) = (counter_total d + 1)%Z.
Proof. unfold count_one. rewrite counter_set_total. lia. Qed.

Lemma hashable_keys_cons (s : json) (x : Z) (rest : counter) :
  hashable_keys ((s, x) :: rest) = true ->
  hashable s = true /\ hashable_keys rest = true.
Proof. cbn [hashable_keys forallb fst]. apply andb_prop. Qed.

Lemma counter_set_get (d : counter) (n k : json) (v : Z) :
  hashable_keys d = true -> hashable n = true -> hashable k = true ->
  counter_get (counter_set d n v) k 0
  = if py_same n k then v else counter_get d k 0.
Proof.
  intros Hd Hn Hk.
  induction d as [| [s x] rest IH]; cbn [counter_set counter_get].
  - reflexivity.
  - apply hashable_keys_cons in Hd as [Hs Hr]. specialize (IH Hr).
    destruct (py_same s n) eqn:Esn; cbn [counter_get].
    + destruct (py_same s k) eqn:Esk.
      * rewrite (py_same_sym s n Hs Hn) in Esn.
        now rewrite (py_same_trans n s k Hn Hs Hk Esn Esk).
      * destruct (py_same n k) eqn:Enk; [| reflexivity].
        rewrite (py_same_trans s n k Hs Hn Hk Esn Enk) in Esk.
        discriminate Esk.
    + destruct (py_same s k) eqn:Esk; [| exact IH].
      destruct (py_same n k) eqn:Enk; [| reflexivity].
      rewrite (py_same_sym n k Hn Hk) in Enk.
      rewrite (py_same_trans s k n Hs Hk Hn Esk Enk) in Esn.
      discriminate Esn.
Qed.

Lemma counter_get_same (d : counter) (n k : json) :
  hashable_keys d = true -> hashable n = true -> hashable k = true ->
  py_same n k = true -> counter_get d n 0 = counter_get d k 0.
Proof.
  intros Hd Hn Hk Enk.
  induction d as [| [s x] rest IH]; cbn [counter_get]; [reflexivity |].
  apply hashable_keys_cons in Hd as [Hs Hr]. specialize (IH Hr).
  destruct (py_same s n) eqn:Esn.
  - now rewrite (py_same_trans s n k Hs Hn Hk Esn Enk).
  - destruct (py_same s k) eqn:Esk; [| exact IH].
    rewrite (py_same_sym n k Hn Hk) in Enk.
    rewrite (py_same_trans s k n Hs Hk Hn Esk Enk) in Esn.
    discriminate Esn.
Qed.

Lemma count_one_get (d : counter) (n k : json) :
  hashable_keys d = true -> hashable n = true -> hashable k = true ->
  counter_get (count_one d n) k 0
  = (counter_get d k 0 + if py_same n k then 1 else 0)%Z.
Proof.
  intros Hd Hn Hk. unfold count_one.
  rewrite (counter_set_get d n k _ Hd Hn Hk).
  destruct (py_same n k) eqn:E; [| lia].
  now rewrite (counter_get_same d n k Hd Hn Hk E).
Qed.

Lemma counter_set_keys (d : counter) (n : json) (v : Z) (k : json) :
  In k (map fst (counter_set d n v)) -> In k (map fst d) \/ k = n.
Proof.
  induction d as [| [s x] rest IH]; cbn [counter_set map fst In].
  - intros [<- | []]. now right.
  - destruct (py_same s n); cbn [map fst In]; [tauto |].
    intros [<- | H]; [tauto |]. destruct (IH H); tauto.
Qed.

Lemma counter_set_hashable (d : counter) (n : json) (v : Z) :
  hashable_keys d = true -> hashable n = true ->
  hashable_keys (counter_set d n v) = true.
Proof.
  intros Hd Hn. induction d as [| [s x] rest IH]; cbn [counter_set].
  - cbn. now rewrite Hn.
  - apply hashable_keys_cons in Hd as [Hs Hr].
    destruct (py_same s n); cbn [hashable_keys forallb fst]; rewrite Hs.
    + exact Hr.
    + exact (IH Hr).
Qed.

Lemma counter_set_meets (d : counter) (n : json) (v : Z) (s : json) :
  existsb (fun kv => py_same s (fst kv)) (counter_set d n v) = true ->
  existsb (fun kv => py_same s (fst kv)) d = true \/ py_same s n = true.
Proof.
  induction d as [| [t x] rest IH]; cbn [counter_set existsb fst].
  - rewrite orb_false_r. now right.
  - destruct (py_same t n); cbn [existsb fst]; [now left |].
    destruct (py_same s t); cbn [orb]; [now left |]. exact IH.
Qed.

Lemma counter_set_distinct (d : counter) (n : json) (v : Z) :
  distinct_keys d = true -> distinct_keys (counter_set d n v) = true.
Proof.
  induction d as [| [s x] rest IH]; cbn [counter_set distinct_keys].
  - reflexivity.
  - intros H. apply andb_prop in H as [Hs Hr].
    destruct (py_same s n) eqn:Esn; cbn [distinct_keys].
    + now rewrite Hs, Hr.
    + rewrite (IH Hr), andb_true_r.
      destruct (existsb (fun kv => py_same s (fst kv)) (counter_set rest n v))
        eqn:E; [| reflexivity].
      apply counter_set_meets in E as [E | E].
      * rewrite E in Hs. discriminate Hs.
      * rewrite E in Esn. discriminate Esn.
Qed.

Lemma counter_get_In (d : counter) (k : json) (v : Z) :
  hashable_keys d = true -> distinct_keys d = true ->
  In (k, v) d -> counter_get d k 0 = v.
Proof.
  induction d as [| [s x] rest IH]; intros Hd Hdis; [intros [] |].
  apply hashable_keys_cons in Hd as [Hs Hr].
  cbn [distinct_keys] in Hdis. apply andb_prop in Hdis as [Hne Hdis].
  cbn [In counter_get]. intros [E | Hin].
  - injection E as -> ->. now rewrite (py_same_refl k Hs).
  - destruct (py_same s k) eqn:Esk; [| now apply IH].
    apply negb_true_iff in Hne.
    assert (existsb (fun kv => py_same s (fst kv)) rest = true); [| congruence].
    apply existsb_exists. exists (k, v). now split.
Qed.

(** *** The counting loop *)

Lemma count_entities_names (es : list json) :
  forall c c',
    count_entities es c = Ok c' ->
    Forall (fun e => exists fields, e = JObj fields) es
    /\ forallb hashable (map entity_name es) = true
    /\ c' = fold_left count_one (map entity_name es) c.
Proof.
  induction es as [| e rest IH]; intros c c'; cbn [count_entities].
  - intros H. injection H as <-. repeat split. constructor.
  - destruct e as [| | | | | | fields]; try (intros H; discriminate H).
    cbn [py_get bind]. fold (field "name" (JStr "unknown") fields).
    destruct (hashable (field "name" (JStr "unknown") fields)) eqn:Eh;
      [| intros H; discriminate H].
    intros H. destruct (IH _ _ H) as (Ho & Hh & ->).
    split; [constructor; eauto |]. split.
    + cbn [map forallb entity_name]. now rewrite Eh.
    + reflexivity.
Qed.

Lemma fold_count_total (names : list json) :
  forall c,
    counter_total (fold_left count_one names c)
    = (counter_total c + Z.of_nat (List.length names))%Z.
Proof.
  induction names as [| n rest IH]; intros c; cbn [fold_left List.length].
  - lia.
  - rewrite IH, count_one_total. lia.
Qed.

Lemma fold_count_hashable (names : list json) :
  forall c,
    hashable_keys c = true -> forallb hashable names = true ->
    hashable_keys (fold_left count_one names c) = true.
Proof.
  induction names as [| n rest IH]; intros c Hc Hn; [exact Hc |].
  cbn [forallb] in Hn. apply andb_prop in Hn as [Hn Hr].
  cbn [fold_left]. apply IH; [| exact Hr].
  now apply counter_set_hashable.
Qed.

Lemma fold_count_distinct (names : list json) :
  forall c,
    distinct_keys c = true ->
    distinct_keys (fold_left count_one names c) = true.
Proof.
  induction names as [| n rest IH]; intros c Hc; [exact Hc |].
  cbn [fold_left]. apply IH. now apply counter_set_distinct.
Qed.

Lemma fold_count_get (names : list json) (k : json) :
  hashable k = true ->
  forall c,
    hashable_keys c = true -> forallb hashable names = true ->
    counter_get (fold_left count_one names c) k 0
    = (counter_get c k 0
       + Z.of_nat (List.length (filter (fun n => py_same n k) names)))%Z.
Proof.
  intros Hk.
  induction names as [| n rest IH]; intros c Hc Hn; cbn [fold_left filter].
  - cbn. lia.
  - cbn [forallb] in Hn. apply andb_prop in Hn as [Hn Hr].
    rewrite IH; [| now apply counter_set_hashable | exact Hr].
    rewrite (count_one_get c n k Hc Hn Hk).
    destruct (py_same n k); cbn [List.length]; lia.
Qed.

Lemma fold_count_keys (names : list json) (k : json) :
  forall c,
    In k (map fst (fold_left count_one names c)) ->
    In k (map fst c) \/ In k names.
Proof.
  induction names as [| n rest IH]; intros c; cbn [fold_left In].
  - now left.
  - intros H. destruct (IH _ H) as [H' | H']; [| tauto].
    apply counter_set_keys in H' as [H' | ->]; tauto.
Qed.

Lemma frequency_names (k : json) (es : list json) :
  frequency k es
  = Z.of_nat
      (List.length (filter (fun n => py_same n k) (map entity_name es))).
Proof.
  unfold frequency. f_equal.
  induction es as [| e rest IH]; [reflexivity |].
  cbn [map filter]. destruct (py_same (entity_name e) k); cbn [List.length];
    now rewrite IH.
Qed.

Lemma frequency_positive (k : json) (names : list json) :
  hashable k = true -> In k names ->
  (1 <= Z.of_nat (List.length (filter (fun n => py_same n k) names)))%Z.
Proof.
  intros Hk Hin.
  assert (H : In k (filter (fun n => py_same n k) names)).
  { apply filter_In. split; [exact Hin | now apply py_same_refl]. }
  destruct (filter (fun n => py_same n k) names); [destruct H |].
  cbn [List.length]. lia.
Qed.

Lemma forallb_hashable_In (names : list json) (k : json) :
  forallb hashable names = true -> In k names -> hashable k = true.
Proof. rewrite forallb_forall. auto. Qed.

(** C4.  For every entity list [es] of a blueprint for which
    [extract_metadata] returns a record: the entity count is the length of
    the list; the values of [entity_counts] add up to that length; no key
    occurs twice; looking up any key gives the number of entities whose
    name, or [unknown] when the entity has no name, is that key, and 0 for
    a key that names no entity; every entry holds exactly that number,
    which is at least 1, under the name of an entity of the list; and
    every entity is counted under its name. *)
Theorem entity_counts_histogram
    (fields bf : list (string * json)) (es : list json)
    (m : blueprint_metadata) :
  lookup "blueprint" fields = Some (JObj bf) ->
  lookup "entities" bf = Some (JArr es) ->
  extract_metadata (JObj fields) = Ok (blueprint m) ->
  entity_count m = Z.of_nat (List.length es)
  /\ counter_total (entity_counts m) = Z.of_nat (List.length es)
  /\ distinct_keys (entity_counts m) = true
  /\ (forall k, hashable k = true ->
      counter_get (entity_counts m) k 0 = frequency k es)
  /\ (forall k v, In (k, v) (entity_counts m) ->
      v = frequency k es /\ (1 <= v)%Z
      /\ exists e, In e es /\ entity_name e = k)
  /\ (forall e, In e es ->
      exists fields', e = JObj fields'
        /\ entity_name e = field "name" (JStr "unknown") fields'
        /\ (1 <= counter_get (entity_counts m) (entity_name e) 0)%Z).
Proof.
  intros Hb He Hm.
  destruct (extract_metadata_blueprint_inv fields bf es m Hb) as
    (c & d & v & Hc & _ & _ & ->); [unfold field; now rewrite He | exact Hm |].
  cbn [entity_count entity_counts].
  destruct (count_entities_names es [] c Hc) as (Hobj & Hh & ->).
  assert (Hk : hashable_keys (fold_left count_one (map entity_name es) [])
               = true) by now apply fold_count_hashable.
  assert (Hd : distinct_keys (fold_left count_one (map entity_name es) [])
               = true) by now apply fold_count_distinct.
  assert (Hg : forall k, hashable k = true ->
               counter_get (fold_left count_one (map entity_name es) []) k 0
               = frequency k es).
  { intros k Hhk. rewrite (fold_count_get _ k Hhk [] eq_refl Hh).
    rewrite frequency_names. cbn [counter_get]. lia. }
  split; [reflexivity |]. split.
  { rewrite fold_count_total. rewrite length_map. cbn. lia. }
  split; [exact Hd |]. split; [exact Hg |]. split.
  - intros k x Hin.
    assert (Hkn : In k (map entity_name es)).
    { destruct (fold_count_keys (map entity_name es) k []) as [[] | H].
      - apply in_map_iff. exists (k, x). now split.
      - exact H. }
    pose proof (forallb_hashable_In _ k Hh Hkn) as Hhk.
    rewrite <- (counter_get_In _ k x Hk Hd Hin), (Hg k Hhk).
    split; [reflexivity |]. split.
    + rewrite frequency_names. now apply frequency_positive.
    + apply in_map_iff in Hkn as (e & <- & Hin'). eauto.
  - intros e Hin. rewrite Forall_forall in Hobj.
    destruct (Hobj e Hin) as [fields' ->].
    exists fields'. split; [reflexivity |]. split; [reflexivity |].
    assert (Hkn : In (entity_name (JObj fields')) (map entity_name es))
      by now apply in_map.
    rewrite (Hg _ (forallb_hashable_In _ _ Hh Hkn)), frequency_names.
    apply frequency_positive; [| exact Hkn].
    exact (forallb_hashable_In _ _ Hh Hkn).
Qed.

Lemma entity_counts_histogram_witness :
  let es := [JObj [("name", JStr "pipe")]; JObj [];
             JObj [("name", JStr "pipe")]] in
  let m := {| name := JStr "Untitled Blueprint";
              description := JStr "";
              entity_count := 3;
              entity_counts := [(JStr "pipe", 2%Z); (JStr "unknown", 1%Z)];
              width := 0;
              height := 0;
              version_major := 0;
              version_minor := 0;
              version_patch := 0 |} in
  extract_metadata (JObj [("blueprint", JObj [("entities", JArr es)])])
  = Ok (blueprint m)
  /\ counter_total (entity_counts m) = 3%Z
  /\ counter_get (entity_counts m) (JStr "unknown") 0 = 1%Z
  /\ counter_get (entity_counts m) (JStr "pipe") 0 = 2%Z.
Proof.
  cbv zeta.
  destruct (entity_counts_histogram
              [("blueprint",
                JObj [("entities",
                       JArr [JObj [("name", JStr "pipe")]; JObj [];
                             JObj [("name", JStr "pipe")]])])]
              [("entities",
                JArr [JObj [("name", JStr "pipe")]; JObj [];
                      JObj [("name", JStr "pipe")]])]
              [JObj [("name", JStr "pipe")]; JObj [];
               JObj [("name", JStr "pipe")]]
              {| name := JStr "Untitled Blueprint";
                 description := JStr "";
                 entity_count := 3;
                 entity_counts := [(JStr "pipe", 2%Z); (JStr "unknown", 1%Z)];
                 width := 0;
                 height := 0;
                 version_major := 0;
                 version_minor := 0;
                 version_patch := 0 |}
              eq_refl eq_refl eq_refl) as (_ & H2 & _ & H4 & _).
  split; [reflexivity |]. split; [exact H2 |]. split.
  - exact (H4 (JStr "unknown") eq_refl).
  - exact (H4 (JStr "pipe") eq_refl).
Defined.

(** ** Further properties of the extractor *)

Lemma decode_version_packed_witness :
  _decode_version (JInt (1 * 2 ^ 48 + 1 * 2 ^ 32 + 110 * 2 ^ 16 + 3))
  = Ok {| major := 1; minor := 1; patch := 110 |}.
Proof. apply (decode_version_packed 1 1 110 3); lia. Defined.

Lemma decode_version_range_witness :
  (0 <= major {| major := 65535; minor := 65535; patch := 65535 |} < 65536)%Z.
Proof.
  apply (decode_version_range (JInt (-1))
           {| major := 65535; minor := 65535; patch := 65535 |}).
  reflexivity.
Defined.




(** Only a document that is an object, with an object under the key
    that classifies it, yields a record. *)
Theorem extract_metadata_needs_objects (document : json) (md : metadata) :
  extract_metadata document = Ok md ->
  exists fields,
    document = JObj fields
    /\ ((exists bf m,
           lookup "blueprint" fields = Some (JObj bf) /\ md = blueprint m)
        \/ (exists bf m,
              lookup "blueprint" fields = None
              /\ lookup "blueprint_book" fields = Some (JObj bf)
              /\ md = blueprint_book m)).
Proof.
  intros H.
  destruct document as [| b | z | f | s | items | fields].
  1-6: exfalso; unfold extract_metadata in H; cbn [py_contains bind] in H;
    try discriminate H.
  - destruct (String.index 0 "blueprint" s); cbn [py_getitem bind] in H;
      [discriminate H |].
    destruct (String.index 0 "blueprint_book" s); discriminate H.
  - destruct (existsb (fun item => py_same item (JStr "blueprint")) items);
      cbn [py_getitem bind] in H; [discriminate H |].
    destruct (existsb (fun item => py_same item (JStr "blueprint_book")) items);
      discriminate H.
  - exists fields. split; [reflexivity |].
    rewrite extract_metadata_object in H.
    destruct (lookup "blueprint" fields) as [bp |].
    + left. destruct (extract_blueprint_variant bp md H) as [m ->].
      destruct bp as [| | | | | | bf]; try discriminate H. eauto.
    + destruct (lookup "blueprint_book" fields) as [bk |];
        [| discriminate H].
      right. destruct (extract_book_variant bk md H) as [m ->].
      destruct bk as [| | | | | | bf]; try discriminate H. eauto.
Qed.

Lemma extract_metadata_needs_objects_witness :
  exists fields, JObj [("blueprint_book", JObj [])] = JObj fields.
Proof.
  destruct (extract_metadata_needs_objects
              (JObj [("blueprint_book", JObj [])])
              (blueprint_book
                 {| book_name := JStr "Untitled Blueprint Book";
                    book_description := JStr "";
                    blueprint_count := 0 |})
              eq_refl) as (fields & H & _).
  exists fields. exact H.
Defined.

(** The book path: the label and the description, or their defaults, and
    the number of entries, whatever the entries are. *)
Theorem extract_metadata_book
    (fields bf : list (string * json)) (entries : list json) :
  lookup "blueprint" fields = None ->
  lookup "blueprint_book" fields = Some (JObj bf) ->
  field "blueprints" (JArr []) bf = JArr entries ->
  extract_metadata (JObj fields)
  = Ok (blueprint_book
          {| book_name := field "label" (JStr "Untitled Blueprint Book") bf;
             book_description := field "description" (JStr "") bf;
             blueprint_count := Z.of_nat (List.length entries) |}).
Proof.
  intros Hb Hk He. rewrite extract_metadata_object, Hb, Hk.
  unfold extract_book. cbn [py_get bind].
  fold (field "blueprints" (JArr []) bf). rewrite He. reflexivity.
Qed.

Lemma extract_metadata_book_witness :
  extract_metadata
    (JObj [("blueprint_book",
            JObj [("label", JStr "X");
                  ("blueprints", JArr [JNull; JInt 7; JObj []])])])
  = Ok (blueprint_book
          {| book_name := JStr "X";
             book_description := JStr "";
             blueprint_count := 3 |}).
Proof.
  apply (extract_metadata_book
           [("blueprint_book",
             JObj [("label", JStr "X");
                   ("blueprints", JArr [JNull; JInt 7; JObj []])])]
           [("label", JStr "X");
            ("blueprints", JArr [JNull; JInt 7; JObj []])]
           [JNull; JInt 7; JObj []]); reflexivity.
Defined.

Lemma count_entities_fold (es : list json) :
  forall c,
    placements es = true ->
    forallb hashable (map entity_name es) = true ->
    count_entities es c = Ok (fold_left count_one (map entity_name es) c).
Proof.
  induction es as [| e rest IH]; intros c Hp Hh; [reflexivity |].
  cbn [placements forallb] in Hp. apply andb_prop in Hp as [He Hp].
  cbn [map forallb] in Hh. apply andb_prop in Hh as [Hn Hh].
  destruct e as [| | | | | | fields]; try discriminate He.
  cbn [count_entities py_get bind map fold_left entity_name] in *.
  fold (field "name" (JStr "unknown") fields). rewrite Hn.
  now apply IH.
Qed.

(** The single-blueprint path on a blueprint of the declared shape, with
    integer coordinates and an integer version: every field of the
    record. *)
Theorem extract_metadata_blueprint
    (fields bf : list (string * json)) (es : list json)
    (xs ys : list Z) (v : Z) :
  lookup "blueprint" fields = Some (JObj bf) ->
  field "entities" (JArr []) bf = JArr es ->
  placements es = true ->
  forallb hashable (map entity_name es) = true ->
  axis "x" es = map JInt xs ->
  axis "y" es = map JInt ys ->
  field "version" (JInt 0) bf = JInt v ->
  extract_metadata (JObj fields)
  = Ok (blueprint
          {| name := field "label" (JStr "Untitled Blueprint") bf;
             description := field "description" (JStr "") bf;
             entity_count := Z.of_nat (List.length es);
             entity_counts := fold_left count_one (map entity_name es) [];
             width := if is_empty xs || is_empty ys then 0 else span xs;
             height := if is_empty xs || is_empty ys then 0 else span ys;
             version_major := Z.land (Z.shiftr v 48) 65535;
             version_minor := Z.land (Z.shiftr v 32) 65535;
             version_patch := Z.land (Z.shiftr v 16) 65535 |}).
Proof.
  intros Hb He Hp Hh Hx Hy Hv.
  rewrite extract_metadata_object, Hb, (extract_blueprint_fields bf es He).
  rewrite (count_entities_fold es [] Hp Hh). cbn [bind].
  rewrite (calculate_dimensions_int es xs ys Hp Hx Hy). cbn [bind].
  rewrite Hv, decode_version_int. cbn [bind major minor patch].
  now destruct (is_empty xs || is_empty ys).
Qed.

Lemma extract_metadata_blueprint_witness :
  extract_metadata
    (JObj [("blueprint",
            JObj [("label", JStr "Line");
                  ("entities",
                   JArr [JObj [("name", JStr "pipe");
                               ("position", JObj [("x", JInt 0); ("y", JInt 0)])];
                         JObj [("name", JStr "pump");
                               ("position", JObj [("x", JInt 5); ("y", JInt 3)])]]);
                  ("version", JInt 281474976710656)])])
  = Ok (blueprint
          {| name := JStr "Line";
             description := JStr "";
             entity_count := 2;
             entity_counts := [(JStr "pipe", 1%Z); (JStr "pump", 1%Z)];
             width := 6;
             height := 4;
             version_major := 1;
             version_minor := 0;
             version_patch := 0 |}).
Proof.
  apply (extract_metadata_blueprint
           [("blueprint",
             JObj [("label", JStr "Line");
                   ("entities",
                    JArr [JObj [("name", JStr "pipe");
                                ("position", JObj [("x", JInt 0); ("y", JInt 0)])];
                          JObj [("name", JStr "pump");
                                ("position", JObj [("x", JInt 5); ("y", JInt 3)])]]);
                   ("version", JInt 281474976710656)])]
           [("label", JStr "Line");
            ("entities",
             JArr [JObj [("name", JStr "pipe");
                         ("position", JObj [("x", JInt 0); ("y", JInt 0)])];
                   JObj [("name", JStr "pump");
                         ("position", JObj [("x", JInt 5); ("y", JInt 3)])]]);
            ("version", JInt 281474976710656)]
           [JObj [("name", JStr "pipe");
                  ("position", JObj [("x", JInt 0); ("y", JInt 0)])];
            JObj [("name", JStr "pump");
                  ("position", JObj [("x", JInt 5); ("y", JInt 3)])]]
           [0%Z; 5%Z] [0%Z; 3%Z] 281474976710656%Z); reflexivity.
Defined.

(** ** Further properties of the decoder *)

Section ParserFacts.

Variable zlib_compress : list byte -> list byte.
Variable zlib_decompress : list byte -> result (list byte).
Variable utf8_json : json -> list byte.
Variable json_loads : list byte -> result json.



(** A character that is not ASCII after the marker makes
    [base64.b64decode] raise [ValueError], which [decode] and [parse]
    let through: it is not a [FormatError]. *)
Theorem decode_non_ascii (rest : string) :
  is_ascii rest = false ->
  decode zlib_decompress json_loads (String "0" rest) = Raise ValueError
  /\ parse zlib_decompress json_loads (String "0" rest) = Raise ValueError
  /\ ~ FormatError ValueError.
Proof.
  intros H.
  assert (D : decode zlib_decompress json_loads (String "0" rest)
              = Raise ValueError).
  { rewrite decode_marker. unfold Base64.b64decode. now rewrite H. }
  split; [exact D |]. split.
  - unfold parse. now rewrite D.
  - intros [F | [cause F]]; discriminate F.
Qed.

(** Parsing the wire encoding of a document gives what
    [extract_metadata] gives on the document, whenever [zlib] and [json]
    give its text and the document back. *)
Theorem parse_encode (D : json) :
  zlib_decompress (zlib_compress (utf8_json D)) = Ok (utf8_json D) ->
  json_loads (utf8_json D) = Ok D ->
  parse zlib_decompress json_loads (encode zlib_compress utf8_json D)
  = extract_metadata D.
Proof.
  intros Hz Hj. unfold parse. rewrite (decode_wire _ _ _ _ D Hz Hj).
  cbn [bind]. now destruct (extract_metadata D).
Qed.

End ParserFacts.


Lemma decode_non_ascii_witness :
  is_ascii (String (ascii_of_nat 233) "") = false
  /\ decode (Recorded.zlib_decompress Recorded.sample)
       (Recorded.json_loads Recorded.sample)
       (String "0" (String (ascii_of_nat 233) ""))
     = Raise ValueError.
Proof.
  split; [reflexivity |].
  apply (decode_non_ascii
           (Recorded.zlib_decompress Recorded.sample)
           (Recorded.json_loads Recorded.sample)
           (String (ascii_of_nat 233) "")).
  reflexivity.
Defined.

Lemma parse_encode_witness :
  parse (Recorded.zlib_decompress Recorded.sample)
    (Recorded.json_loads Recorded.sample)
    (encode (Recorded.zlib_compress Recorded.sample)
       (Recorded.utf8_json Recorded.sample) Recorded.sample_document)
  = extract_metadata Recorded.sample_document.
Proof.
  apply (parse_encode (Recorded.zlib_compress Recorded.sample)
           (Recorded.zlib_decompress Recorded.sample)
           (Recorded.utf8_json Recorded.sample)
           (Recorded.json_loads Recorded.sample) Recorded.sample_document).
  - vm_compute. reflexivity.
  - vm_compute. reflexivity.
Defined.

(** ** The order of the entities *)

Lemma axis_Permutation (key : string) (es es' : list json) :
  Permutation es es' -> Permutation (axis key es) (axis key es').
Proof.
  induction 1 as [| e l l' _ IH | a b l | l l' l'' _ IH1 _ IH2].
  - constructor.
  - cbn [axis]. destruct (entity_position e) as [p |]; [| exact IH].
    destruct (lookup key p); [now constructor | exact IH].
  - cbn [axis].
    destruct (entity_position a) as [p |], (entity_position b) as [q |];
      try reflexivity;
      try destruct (lookup key p); try destruct (lookup key q);
      try reflexivity.
    apply perm_swap.
  - now transitivity (axis key l').
Qed.

Lemma placements_Permutation (es es' : list json) :
  Permutation es es' -> placements es = true -> placements es' = true.
Proof.
  unfold placements. rewrite !forallb_forall. intros P H e He.
  apply H. apply (Permutation_in e (Permutation_sym P) He).
Qed.

Lemma fold_max_In (l : list Z) : forall x, In (fold_left Z.max l x) (x :: l).
Proof.
  induction l as [| a rest IH]; intros x; cbn [fold_left]; [now left |].
  destruct (IH (Z.max x a)) as [H | H]; [| right; now right].
  rewrite <- H. destruct (Z.max_spec x a) as [[_ ->] | [_ ->]];
    [right; now left | now left].
Qed.

Lemma fold_min_In (l : list Z) : forall x, In (fold_left Z.min l x) (x :: l).
Proof.
  induction l as [| a rest IH]; intros x; cbn [fold_left]; [now left |].
  destruct (IH (Z.min x a)) as [H | H]; [| right; now right].
  rewrite <- H. destruct (Z.min_spec x a) as [[_ ->] | [_ ->]];
    [now left | right; now left].
Qed.

Lemma fold_max_upper (l : list Z) :
  forall x v, In v (x :: l) -> (v <= fold_left Z.max l x)%Z.
Proof.
  induction l as [| a rest IH]; intros x v; cbn [fold_left].
  - intros [<- | []]. lia.
  - intros [<- | [<- | H]].
    + specialize (IH (Z.max x a) (Z.max x a) (or_introl eq_refl)). lia.
    + specialize (IH (Z.max x a) (Z.max x a) (or_introl eq_refl)). lia.
    + apply IH. now right.
Qed.

Lemma fold_min_lower (l : list Z) :
  forall x v, In v (x :: l) -> (fold_left Z.min l x <= v)%Z.
Proof.
  induction l as [| a rest IH]; intros x v; cbn [fold_left].
  - intros [<- | []]. lia.
  - intros [<- | [<- | H]].
    + specialize (IH (Z.min x a) (Z.min x a) (or_introl eq_refl)). lia.
    + specialize (IH (Z.min x a) (Z.min x a) (or_introl eq_refl)). lia.
    + apply IH. now right.
Qed.

Lemma span_Permutation (l l' : list Z) : Permutation l l' -> span l = span l'.
Proof.
  intros P. destruct l as [| x rest].
  - apply Permutation_nil in P. now subst.
  - destruct l' as [| y rest'].
    + apply Permutation_sym, Permutation_nil in P. discriminate P.
    + cbn [span].
      pose proof (fold_max_In rest x) as M1.
      pose proof (fold_max_In rest' y) as M2.
      pose proof (fold_min_In rest x) as N1.
      pose proof (fold_min_In rest' y) as N2.
      apply (Permutation_in _ P) in M1, N1.
      apply (Permutation_in _ (Permutation_sym P)) in M2, N2.
      apply fold_max_upper in M1, M2. apply fold_min_lower in N1, N2.
      lia.
Qed.

Lemma is_empty_Permutation {A : Type} (l l' : list A) :
  Permutation l l' -> is_empty l = is_empty l'.
Proof.
  intros P. destruct l as [| x rest].
  - apply Permutation_nil in P. now subst.
  - destruct l'; [| reflexivity].
    apply Permutation_sym, Permutation_nil in P. discriminate P.
Qed.

(** On integer coordinates the dimensions do not depend on the order of
    the entities in the document. *)
Theorem dimensions_order_independent
    (es es' : list json) (xs ys : list Z) :
  placements es = true ->
  axis "x" es = map JInt xs ->
  axis "y" es = map JInt ys ->
  Permutation es es' ->
  _calculate_dimensions (JArr es') = _calculate_dimensions (JArr es).
Proof.
  intros Hp Hx Hy P.
  pose proof (placements_Permutation es es' P Hp) as Hp'.
  pose proof (axis_Permutation "x" es es' P) as Px.
  pose proof (axis_Permutation "y" es es' P) as Py.
  rewrite Hx in Px. rewrite Hy in Py.
  apply Permutation_sym, Permutation_map_inv in Px as (xs' & Hx' & Qx).
  apply Permutation_sym, Permutation_map_inv in Py as (ys' & Hy' & Qy).
  rewrite (calculate_dimensions_int es xs ys Hp Hx Hy).
  rewrite (calculate_dimensions_int es' xs' ys' Hp' Hx' Hy').
  rewrite (is_empty_Permutation _ _ Qx), (is_empty_Permutation _ _ Qy).
  now rewrite (span_Permutation _ _ Qx), (span_Permutation _ _ Qy).
Qed.

Lemma dimensions_order_independent_witness :
  _calculate_dimensions
    (JArr [entity_at (JInt 5) (JInt 3); entity_at (JInt 0) (JInt 0)])
  = _calculate_dimensions
      (JArr [entity_at (JInt 0) (JInt 0); entity_at (JInt 5) (JInt 3)]).
Proof.
  apply (dimensions_order_independent
           [entity_at (JInt 0) (JInt 0); entity_at (JInt 5) (JInt 3)]
           [entity_at (JInt 5) (JInt 3); entity_at (JInt 0) (JInt 0)]
           [0%Z; 5%Z] [0%Z; 3%Z]); try reflexivity.
  apply perm_swap.
Defined.

(** The dimensions are never negative, and both are 0 or both are at
    least 1, on integer coordinates. *)
Theorem dimensions_both_or_none
    (es : list json) (xs ys : list Z) :
  placements es = true ->
  axis "x" es = map JInt xs ->
  axis "y" es = map JInt ys ->
  exists d,
    _calculate_dimensions (JArr es) = Ok d
    /\ ((dim_width d = 0 /\ dim_height d = 0 /\ (xs = [] \/ ys = []))
        \/ (1 <= dim_width d /\ 1 <= dim_height d /\ xs <> [] /\ ys <> []))%Z.
Proof.
  intros Hp Hx Hy. rewrite (calculate_dimensions_int es xs ys Hp Hx Hy).
  eexists. split; [reflexivity |].
  destruct xs as [| x xs]; [left; cbn; tauto |].
  destruct ys as [| y ys]; [left; cbn; tauto |].
  right. cbn [is_empty orb dim_width dim_height].
  repeat split; try apply span_positive; discriminate.
Qed.

Lemma dimensions_both_or_none_witness :
  exists d,
    _calculate_dimensions (JArr [entity_at (JInt 4) (JInt 4)]) = Ok d
    /\ (1 <= dim_width d)%Z.
Proof.
  destruct (dimensions_both_or_none
              [entity_at (JInt 4) (JInt 4)] [4%Z] [4%Z]
              eq_refl eq_refl eq_refl) as (d & Hd & [(_ & _ & [H | H]) | (H & _)]).
  - discriminate H.
  - discriminate H.
  - exists d. split; [exact Hd | exact H].
Defined.

(** ** The service *)

Section ServiceFacts.

Variable zlib_decompress : list byte -> result (list byte).
Variable json_loads : list byte -> result json.

Variable zlib_compress : list byte -> list byte.
Variable utf8_json : json -> list byte.

(** The wire encoding of a blueprint book, which the parser accepts,
    makes [create_blueprint] raise [KeyError] while it builds the row,
    before any database call: the metadata of a book has no
    [version_major].  [KeyError] is not a [BlueprintParseError]. *)
Theorem create_blueprint_book
    (fields bf : list (string * json)) (entries : list json) :
  lookup "blueprint" fields = None ->
  lookup "blueprint_book" fields = Some (JObj bf) ->
  field "blueprints" (JArr []) bf = JArr entries ->
  zlib_decompress (zlib_compress (utf8_json (JObj fields)))
  = Ok (utf8_json (JObj fields)) ->
  json_loads (utf8_json (JObj fields)) = Ok (JObj fields) ->
  let s := encode zlib_compress utf8_json (JObj fields) in
  parse zlib_decompress json_loads s
  = Ok (blueprint_book
          {| book_name := field "label" (JStr "Untitled Blueprint Book") bf;
             book_description := field "description" (JStr "") bf;
             blueprint_count := Z.of_nat (List.length entries) |})
  /\ create_blueprint zlib_decompress json_loads s = Raise KeyError
  /\ ~ FormatError KeyError /\ ~ SchemaError KeyError.
Proof.
  intros Hb Hk He Hz Hj s.
  assert (P : parse zlib_decompress json_loads s
              = Ok (blueprint_book
                      {| book_name :=
                           field "label" (JStr "Untitled Blueprint Book") bf;
                         book_description := field "description" (JStr "") bf;
                         blueprint_count := Z.of_nat (List.length entries) |})).
  { unfold parse, s. rewrite (decode_wire _ _ _ _ _ Hz Hj). cbn [bind].
    rewrite extract_metadata_object, Hb, Hk.
    unfold extract_book. cbn [py_get bind].
    fold (field "blueprints" (JArr []) bf). rewrite He. reflexivity. }
  split; [exact P |]. split.
  - unfold create_blueprint. rewrite P. reflexivity.
  - split.
    + intros [H | [cause H]]; discriminate H.
    + intros H. discriminate H.
Qed.

End ServiceFacts.

Lemma create_blueprint_book_witness :
  create_blueprint (Recorded.zlib_decompress Recorded.book)
    (Recorded.json_loads Recorded.book) Recorded.book_wire
  = Raise KeyError.
Proof.
  destruct (create_blueprint_book
              (Recorded.zlib_decompress Recorded.book)
              (Recorded.json_loads Recorded.book)
              (Recorded.zlib_compress Recorded.book)
              (Recorded.utf8_json Recorded.book)
              [("blueprint_book",
                JObj [("label", JStr "X");
                      ("blueprints", JArr [JObj []; JObj []; JObj []])])]
              [("label", JStr "X");
               ("blueprints", JArr [JObj []; JObj []; JObj []])]
              [JObj []; JObj []; JObj []]
              eq_refl eq_refl eq_refl) as (_ & H & _).
  - vm_compute. reflexivity.
  - vm_compute. reflexivity.
  - exact H.
Defined.

